(** * A document editor over a hosted record store

    Shallow embedding of the pages of the editor application:

    - the dashboard   ([src/app/(app)/dashboard/page.tsx]),
    - the editor page ([src/app/page.tsx], component [DocumentPage]),
    - the read-only view page ([src/app/(app)/document/[id]/view/page.tsx]).

    Every page is a React component: a record of state variables, a set of
    asynchronous handlers and a render function.  A handler runs against
    the snapshot of the state it closed over, queues state updates, talks
    to the record store, raises toasts and asks the router to navigate.
    Handlers are written in a small state-and-exception monad over the
    component state and the outside world. *)

From Stdlib Require Import String Ascii List ZArith Bool Lia.
From Stdlib Require Import DecimalString Sorted Permutation.
Import ListNotations.
Local Open Scope string_scope.
Local Open Scope Z_scope.

Set Implicit Arguments.
#[local] Set Warnings "-register-all".

(* ===================================================================== *)
(** * JavaScript values and strings *)
(* ===================================================================== *)

(** The values a [content: any] field can hold: what [JSON.parse] returns
    and [editor.getJSON()] builds.  Numbers are the integer-valued ones
    (heading levels, list starts); an object keeps its keys in insertion
    order. *)
Inductive JsValue : Type :=
| JNull
| JBool (b : bool)
| JNum (n : Z)
| JStr (s : string)
| JArr (items : list JsValue)
| JObj (fields : list (string * JsValue)).


(** JavaScript truthiness, as used by [content && ...] and [if (x)]. *)
Definition truthy (v : JsValue) : bool :=
  match v with
  | JNull => false
  | JBool b => b
  | JNum n => negb (n =? 0)
  | JStr s => negb (s =? "")%string
  | JArr _ | JObj _ => true
  end.

(** [Object.is] between the value a state variable holds and the value it
    is being set to.  Primitives compare by value.  Objects and arrays
    compare by reference; every object reaching a state setter in these
    pages is freshly allocated ([JSON.parse], [editor.getJSON()]), so two
    of them are never the same reference. *)
Definition Object_is (a b : JsValue) : bool :=
  match a, b with
  | JNull, JNull => true
  | JBool x, JBool y => Bool.eqb x y
  | JNum x, JNum y => x =? y
  | JStr x, JStr y => (x =? y)%string
  | _, _ => false
  end.

(** The double-quote character. *)
Definition dquote : ascii := ascii_of_nat 34.
Definition backslash : ascii := ascii_of_nat 92.

(** Lower-casing of ASCII text: the letters [A-Z] become [a-z], every
    other character stays. *)
Definition lower_char (c : ascii) : ascii :=
  let n := nat_of_ascii c in
  if (andb (65 <=? n) (n <=? 90))%nat then ascii_of_nat (n + 32) else c.

Fixpoint ascii_toLowerCase (s : string) : string :=
  match s with
  | EmptyString => EmptyString
  | String c rest => String (lower_char c) (ascii_toLowerCase rest)
  end.

(** Every character of [s] is an ASCII character. *)
Fixpoint is_ascii (s : string) : bool :=
  match s with
  | EmptyString => true
  | String c rest => (nat_of_ascii c <? 128)%nat && is_ascii rest
  end.

(** [String.prototype.toLowerCase] belongs to the platform: it lower-cases
    every cased letter of Unicode.  The pages are written against this
    interface, which fixes the method on ASCII text only, where it is
    [ascii_toLowerCase]. *)
Class JSString : Type := {
  toLowerCase : string -> string;
  toLowerCase_ascii :
    forall s, is_ascii s = true -> toLowerCase s = ascii_toLowerCase s
}.

(** A reference implementation, used to run the pages on ASCII text. *)
Definition ascii_JSString : JSString :=
  {| toLowerCase := ascii_toLowerCase;
     toLowerCase_ascii := fun s _ => eq_refl |}.

(** [String.prototype.includes]: [needle] occurs in [hay] at some
    position. *)
Fixpoint includes (hay needle : string) : bool :=
  if String.prefix needle hay then true
  else match hay with
       | EmptyString => false
       | String _ rest => includes rest needle
       end.

(* ===================================================================== *)
(** * JSON *)
(* ===================================================================== *)

(** [JSON.parse] and [JSON.stringify] belong to the platform, not to the
    application.  The pages are written against this interface;
    [JSON_parse] answers [None] where [JSON.parse] throws a
    [SyntaxError]. *)
Class JSON : Type := {
  JSON_parse : string -> option JsValue;
  JSON_stringify : JsValue -> string
}.

(** A reference implementation, used to run the pages on concrete
    documents. *)
Module RefJSON.

Definition hex_digit (n : nat) : ascii :=
  if (n <? 10)%nat then ascii_of_nat (48 + n) else ascii_of_nat (87 + n).

(** One character of a string literal, escaped as [JSON.stringify]
    does. *)
Definition escape_char (c : ascii) : string :=
  let n := nat_of_ascii c in
  if (n =? 34)%nat then String backslash (String dquote EmptyString)
  else if (n =? 92)%nat then String backslash (String backslash EmptyString)
  else if (n =? 8)%nat then String backslash "b"
  else if (n =? 12)%nat then String backslash "f"
  else if (n =? 10)%nat then String backslash "n"
  else if (n =? 13)%nat then String backslash "r"
  else if (n =? 9)%nat then String backslash "t"
  else if (n <? 32)%nat then
    String backslash
      (String "u" (String "0" (String "0"
        (String (hex_digit (n / 16)) (String (hex_digit (n mod 16)) EmptyString)))))
  else String c EmptyString.

Fixpoint escape (s : string) : string :=
  match s with
  | EmptyString => EmptyString
  | String c rest => escape_char c ++ escape rest
  end.

Definition quote (s : string) : string :=
  String dquote (escape s ++ String dquote EmptyString).

Definition string_of_Z (n : Z) : string :=
  NilZero.string_of_int (Z.to_int n).

Fixpoint stringify (v : JsValue) : string :=
  match v with
  | JNull => "null"
  | JBool true => "true"
  | JBool false => "false"
  | JNum n => string_of_Z n
  | JStr s => quote s
  | JArr items =>
      "[" ++ String.concat "," (map stringify items) ++ "]"
  | JObj fields =>
      "{" ++ String.concat ","
               (map (fun kv => quote (fst kv) ++ ":" ++ stringify (snd kv)) fields)
          ++ "}"
  end.

(** ** Parsing: recursive descent, one unit of fuel per value or member *)

Definition is_ws (c : ascii) : bool :=
  let n := nat_of_ascii c in
  ((n =? 32) || (n =? 9) || (n =? 10) || (n =? 13))%nat.

Fixpoint skip_ws (s : string) : string :=
  match s with
  | String c rest => if is_ws c then skip_ws rest else s
  | EmptyString => s
  end.

Definition is_digit (c : ascii) : bool :=
  let n := nat_of_ascii c in ((48 <=? n) && (n <=? 57))%nat.

Definition digit_val (c : ascii) : Z := Z.of_nat (nat_of_ascii c - 48).

(** The digits at the head of [s], folded into [acc]; the number of
    digits read comes back too. *)
Fixpoint digits (s : string) (acc : Z) (count : nat) : Z * nat * string :=
  match s with
  | String c rest =>
      if is_digit c then digits rest (10 * acc + digit_val c) (S count)
      else (acc, count, s)
  | EmptyString => (acc, count, s)
  end.

Definition starts_fraction (s : string) : bool :=
  match s with
  | String c _ =>
      let n := nat_of_ascii c in ((n =? 46) || (n =? 101) || (n =? 69))%nat
  | EmptyString => false
  end.

(** An integer literal: no leading zero, no fraction, no exponent. *)
Definition parse_nat_lit (s : string) : option (Z * string) :=
  match s with
  | String c rest =>
      if is_digit c then
        let '(n, count, rest') := digits s 0 0 in
        if (andb (nat_of_ascii c =? 48) (1 <? count))%nat then None
        else if starts_fraction rest' then None
        else Some (n, rest')
      else None
  | EmptyString => None
  end.

(** The body of a string literal, after the opening quote. *)
Fixpoint parse_chars (s : string) : option (string * string) :=
  match s with
  | EmptyString => None
  | String c rest =>
      let n := nat_of_ascii c in
      if (n =? 34)%nat then Some (EmptyString, rest)
      else if (n <? 32)%nat then None
      else if (n =? 92)%nat then
        match rest with
        | String e rest' =>
            let m := nat_of_ascii e in
            let unescaped :=
              if (m =? 34)%nat then Some dquote
              else if (m =? 92)%nat then Some backslash
              else if (m =? 47)%nat then Some (ascii_of_nat 47)
              else if (m =? 98)%nat then Some (ascii_of_nat 8)
              else if (m =? 102)%nat then Some (ascii_of_nat 12)
              else if (m =? 110)%nat then Some (ascii_of_nat 10)
              else if (m =? 114)%nat then Some (ascii_of_nat 13)
              else if (m =? 116)%nat then Some (ascii_of_nat 9)
              else None in
            match unescaped with
            | Some u =>
                match parse_chars rest' with
                | Some (body, after) => Some (String u body, after)
                | None => None
                end
            | None => None
            end
        | EmptyString => None
        end
      else
        match parse_chars rest with
        | Some (body, after) => Some (String c body, after)
        | None => None
        end
  end.

Definition strip (lit s : string) : option string :=
  if String.prefix lit s
  then Some (String.substring (String.length lit)
                              (String.length s - String.length lit) s)
  else None.

Fixpoint parse_value (fuel : nat) (s : string) : option (JsValue * string) :=
  match fuel with
  | O => None
  | S fuel' =>
      let parse_items :=
        fix parse_items (gas : nat) (s : string) (acc : list JsValue)
          : option (list JsValue * string) :=
          match gas with
          | O => None
          | S gas' =>
              match parse_value fuel' (skip_ws s) with
              | Some (v, rest) =>
                  match skip_ws rest with
                  | String "," rest' => parse_items gas' rest' (v :: acc)
                  | String "]" rest' => Some (rev (v :: acc), rest')
                  | _ => None
                  end
              | None => None
              end
          end in
      let parse_members :=
        fix parse_members (gas : nat) (s : string) (acc : list (string * JsValue))
          : option (list (string * JsValue) * string) :=
          match gas with
          | O => None
          | S gas' =>
              match skip_ws s with
              | String q rest =>
                  if (nat_of_ascii q =? 34)%nat then
                    match parse_chars rest with
                    | Some (key, rest1) =>
                        match skip_ws rest1 with
                        | String ":" rest2 =>
                            match parse_value fuel' (skip_ws rest2) with
                            | Some (v, rest3) =>
                                match skip_ws rest3 with
                                | String "," rest4 =>
                                    parse_members gas' rest4 ((key, v) :: acc)
                                | String "}" rest4 =>
                                    Some (rev ((key, v) :: acc), rest4)
                                | _ => None
                                end
                            | None => None
                            end
                        | _ => None
                        end
                    | None => None
                    end
                  else None
              | EmptyString => None
              end
          end in
      match s with
      | EmptyString => None
      | String c rest =>
          let n := nat_of_ascii c in
          if (n =? 34)%nat then
            match parse_chars rest with
            | Some (body, after) => Some (JStr body, after)
            | None => None
            end
          else if (n =? 91)%nat then
            match skip_ws rest with
            | String "]" after => Some (JArr [], after)
            | _ => match parse_items (String.length rest) rest [] with
                   | Some (items, after) => Some (JArr items, after)
                   | None => None
                   end
            end
          else if (n =? 123)%nat then
            match skip_ws rest with
            | String "}" after => Some (JObj [], after)
            | _ => match parse_members (String.length rest) rest [] with
                   | Some (fields, after) => Some (JObj fields, after)
                   | None => None
                   end
            end
          else if (n =? 45)%nat then
            match parse_nat_lit rest with
            | Some (k, after) => Some (JNum (- k), after)
            | None => None
            end
          else if is_digit c then
            match parse_nat_lit s with
            | Some (k, after) => Some (JNum k, after)
            | None => None
            end
          else
            match strip "null" s, strip "true" s, strip "false" s with
            | Some after, _, _ => Some (JNull, after)
            | _, Some after, _ => Some (JBool true, after)
            | _, _, Some after => Some (JBool false, after)
            | _, _, _ => None
            end
      end
  end.

Definition parse (s : string) : option JsValue :=
  match parse_value (S (String.length s)) (skip_ws s) with
  | Some (v, rest) =>
      match skip_ws rest with
      | EmptyString => Some v
      | _ => None
      end
  | None => None
  end.

End RefJSON.

#[export] Instance reference_JSON : JSON :=
  {| JSON_parse := RefJSON.parse; JSON_stringify := RefJSON.stringify |}.

(* ===================================================================== *)
(** * The outside world *)
(* ===================================================================== *)

(** What a handler can throw or be handed as [error]. *)
Inductive Error : Type :=
| PostgrestError (message : string)   (* the [error] of a store response *)
| SyntaxError (message : string)      (* thrown by [JSON.parse] *)
| DOMException (name : string).       (* a rejected clipboard write *)

(** Instants, in milliseconds.  The store's timestamp columns and
    [new Date().toISOString()] denote instants; ordering rows by
    [updated_at] orders them by instant. *)
Definition Timestamp := Z.

(** A row of the [documents] table ([DocumentData] in the pages).
    [content] is either the serialized text or, in the structured form,
    the tree itself. *)
Module DocumentData.
Record t : Type := mk {
  id : string;
  title : string;
  content : JsValue;
  status : string;
  user_id : option string;
  created_at : Timestamp;
  updated_at : Timestamp
}.
End DocumentData.
Definition Row : Type := DocumentData.t.

(** The signed-in user, as [useAuth()] hands it over. *)
Module Auth.
Record User : Type := mkUser { id : string }.
End Auth.

(** The object passed to [.insert([...])]. *)
Record NewRow : Type := mkNewRow {
  new_title : string;
  new_content : string;
  new_user_id : option string;     (* [user?.id] *)
  new_status : string
}.

(** The object passed to [.update({...})]: absent keys are [None]. *)
Record Patch : Type := mkPatch {
  set_title : option string;
  set_content : option string;
  set_status : option string;
  set_updated_at : option Timestamp
}.

(** [.eq(column, value)]; the value is [None] when the argument is
    [undefined]. *)
Definition Filter : Type := (string * option string)%type.

(** The requests the pages send to [supabase.from("documents")]. *)
Inductive StoreCall : Type :=
| Select (filters : list Filter) (order : option (string * bool)) (single : bool)
| Insert (rows : list NewRow)
| Update (patch : Patch) (filters : list Filter)
| Delete (filters : list Filter).

(** The [{ data, error }] object a store call resolves to. *)
Record Response (A : Type) : Type := mkResponse {
  data : option A;
  error : option Error
}.
Arguments mkResponse {A} data error.

Inductive Variant : Type := default_variant | destructive.

(** What the user, the router and the console observe. *)
Inductive Effect : Type :=
| ConsoleError (label : string) (e : Error)
| Toast (toast_title toast_description : string) (variant : Variant)
| RouterPush (route : string).

Record World : Type := mkWorld {
  table : list Row;            (* the remote [documents] table *)
  outage : option Error;       (* when set, store calls fail with it *)
  clock : Timestamp;           (* what [new Date()] reads *)
  id_supply : list string;     (* the ids the store assigns next *)
  calls : list StoreCall;      (* requests sent so far, oldest first *)
  trace : list Effect          (* effects so far, oldest first *)
}.

Definition with_table (t : list Row) (w : World) : World :=
  mkWorld t (outage w) (clock w) (id_supply w) (calls w) (trace w).
Definition with_id_supply (ids : list string) (w : World) : World :=
  mkWorld (table w) (outage w) (clock w) ids (calls w) (trace w).
Definition with_clock (t : Timestamp) (w : World) : World :=
  mkWorld (table w) (outage w) t (id_supply w) (calls w) (trace w).
Definition log_call (c : StoreCall) (w : World) : World :=
  mkWorld (table w) (outage w) (clock w) (id_supply w) (calls w ++ [c]) (trace w).
Definition log_effect (e : Effect) (w : World) : World :=
  mkWorld (table w) (outage w) (clock w) (id_supply w) (calls w) (trace w ++ [e]).

(* ===================================================================== *)
(** * The handler monad *)
(* ===================================================================== *)

(** An [async] function body: it updates the component state [S], acts on
    the world, and either completes or throws. *)
Inductive Result (A : Type) : Type :=
| Done (a : A)
| Thrown (e : Error).
Arguments Done {A} a.
Arguments Thrown {A} e.

Definition M (S A : Type) : Type := S -> World -> Result A * S * World.

Section Monad.
Context {S : Type}.

Definition ret {A} (a : A) : M S A := fun s w => (Done a, s, w).

Definition bind {A B} (m : M S A) (k : A -> M S B) : M S B :=
  fun s w =>
    match m s w with
    | (Done a, s', w') => k a s' w'
    | (Thrown e, s', w') => (Thrown e, s', w')
    end.

Definition throw {A} (e : Error) : M S A := fun s w => (Thrown e, s, w).

(** [try { body } catch (error) { handler } finally { final }] *)
Definition try_catch_finally (body : M S unit) (handler : Error -> M S unit)
           (final : M S unit) : M S unit :=
  fun s w =>
    let '(r, s1, w1) :=
      match body s w with
      | (Done tt, s', w') => (Done tt, s', w')
      | (Thrown e, s', w') => handler e s' w'
      end in
    match final s1 w1 with
    | (Done tt, s2, w2) => (r, s2, w2)
    | (Thrown e, s2, w2) => (Thrown e, s2, w2)
    end.

(** [try { body } catch (error) { handler }] *)
Definition try_catch (body : M S unit) (handler : Error -> M S unit) : M S unit :=
  try_catch_finally body handler (ret tt).

(** A state setter: [setX(v)]. *)
Definition set_state (f : S -> S) : M S unit := fun s w => (Done tt, f s, w).

Definition emit (e : Effect) : M S unit := fun s w => (Done tt, s, log_effect e w).

Definition console_error (label : string) (e : Error) : M S unit :=
  emit (ConsoleError label e).
Definition toast (t d : string) (v : Variant) : M S unit := emit (Toast t d v).
Definition router_push (route : string) : M S unit := emit (RouterPush route).

(** [new Date().toISOString()] *)
Definition new_Date : M S Timestamp := fun s w => (Done (clock w), s, w).

End Monad.

Declare Scope handler_scope.
Delimit Scope handler_scope with handler.
Notation "x <- m ;; k" := (bind m (fun x => k))
  (at level 61, m at next level, right associativity) : handler_scope.
Notation "m ;; k" := (bind m (fun _ => k))
  (at level 61, right associativity) : handler_scope.
Local Open Scope handler_scope.

(** The system clipboard, for the handlers that write to it: they run on
    the clipboard instead of a component state.  The browser may refuse a
    write (no permission, document not focused). *)
Record Clipboard : Type := mkClipboard {
  held : option string;        (* the text on the clipboard *)
  refusal : option Error       (* when set, writes are rejected with it *)
}.

(** [await navigator.clipboard.writeText(text)]: the text is on the
    clipboard, or the promise rejects and the [await] throws. *)
Definition clipboard_writeText (text : string) : M Clipboard unit :=
  fun c w =>
    match refusal c with
    | Some e => (Thrown e, c, w)
    | None => (Done tt, mkClipboard (Some text) None, w)
    end.

(** [`${window.location.origin}/document/${id}/view`] *)
Definition shareableLink (origin id : string) : string :=
  origin ++ "/document/" ++ id ++ "/view".

(* ===================================================================== *)
(** * The record store *)
(* ===================================================================== *)

Module Supabase.

(** The record store behind [@/lib/supabase] is a hosted service: a
    [documents] collection with create, read, update, delete and list.
    Here a request is carried out as it is written: it touches the rows
    its [.eq] filters select and no others.  A failing call answers
    [{ data: null, error }] and leaves the table as it is. *)

(** Modelled from the spec: the columns of a document an [.eq] filter can
    name. *)
Definition column (c : string) (r : Row) : option string :=
  if (c =? "id")%string then Some (DocumentData.id r)
  else if (c =? "title")%string then Some (DocumentData.title r)
  else if (c =? "status")%string then Some (DocumentData.status r)
  else if (c =? "user_id")%string then DocumentData.user_id r
  else None.

Definition matches (r : Row) (f : Filter) : bool :=
  match snd f, column (fst f) r with
  | Some v, Some x => (x =? v)%string
  | _, _ => false
  end.

Definition selected (fs : list Filter) (r : Row) : bool :=
  forallb (matches r) fs.

Definition sort_key (c : string) (r : Row) : Z :=
  if (c =? "updated_at")%string then DocumentData.updated_at r
  else if (c =? "created_at")%string then DocumentData.created_at r
  else 0.

(** [before o a b]: [a] may stand before [b] under the order [o]. *)
Definition before (o : string * bool) (a b : Row) : bool :=
  if snd o then sort_key (fst o) a <=? sort_key (fst o) b
  else sort_key (fst o) b <=? sort_key (fst o) a.

Fixpoint place (o : string * bool) (r : Row) (l : list Row) : list Row :=
  match l with
  | [] => [r]
  | x :: rest => if before o r x then r :: l else x :: place o r rest
  end.

Definition ordered (o : option (string * bool)) (l : list Row) : list Row :=
  match o with
  | Some o => fold_right (place o) [] l
  | None => l
  end.

Definition apply_patch (p : Patch) (r : Row) : Row :=
  DocumentData.mk
    (DocumentData.id r)
    (match set_title p with Some t => t | None => DocumentData.title r end)
    (match set_content p with Some c => JStr c | None => DocumentData.content r end)
    (match set_status p with Some s => s | None => DocumentData.status r end)
    (DocumentData.user_id r)
    (DocumentData.created_at r)
    (match set_updated_at p with Some t => t | None => DocumentData.updated_at r end).

(** The rows an insert creates: each takes the next id of the supply
    and the current instant for both timestamps. *)
Fixpoint create (now : Timestamp) (rows : list NewRow) (ids : list string)
  : option (list Row * list string) :=
  match rows with
  | [] => Some ([], ids)
  | n :: rest =>
      match ids with
      | [] => None
      | i :: ids' =>
          match create now rest ids' with
          | Some (created, ids'') =>
              Some (DocumentData.mk i (new_title n) (JStr (new_content n))
                                    (new_status n) (new_user_id n) now now
                      :: created, ids'')
          | None => None
          end
      end
  end.

Section Calls.
Context {S : Type}.

(** Modelled from the spec: a call to the store.  Every call is logged;
    during an outage it fails before reaching the table. *)
Definition call {A} (c : StoreCall) (run : World -> Response A * World)
  : M S (Response A) :=
  fun s w =>
    let w1 := log_call c w in
    match outage w1 with
    | Some e => (Done (mkResponse None (Some e)), s, w1)
    | None => let '(r, w2) := run w1 in (Done r, s, w2)
    end.

(** Modelled from the spec: [list], [.select("*")] with filters and an
    optional [.order(...)]. *)
Definition select (fs : list Filter) (o : option (string * bool))
  : M S (Response (list Row)) :=
  call (Select fs o false)
       (fun w => (mkResponse (Some (ordered o (filter (selected fs) (table w)))) None, w)).

(** Modelled from the spec: [fetch], [.select("*") ... .single()]:
    exactly one row, or an error. *)
Definition select_single (fs : list Filter) : M S (Response Row) :=
  call (Select fs None true)
       (fun w =>
          match filter (selected fs) (table w) with
          | [r] => (mkResponse (Some r) None, w)
          | _ => (mkResponse None (Some (PostgrestError "PGRST116")), w)
          end).

(** Modelled from the spec: [create], [.insert(rows).select()]; the
    answer carries the rows as inserted. *)
Definition insert (rows : list NewRow) : M S (Response (list Row)) :=
  call (Insert rows)
       (fun w =>
          match create (clock w) rows (id_supply w) with
          | Some (created, ids) =>
              (mkResponse (Some created) None,
               with_id_supply ids (with_table (table w ++ created) w))
          | None => (mkResponse None (Some (PostgrestError "no id to assign")), w)
          end).

(** Modelled from the spec: [update], [.update(patch)] with filters; a
    partial update of the rows selected. *)
Definition update (p : Patch) (fs : list Filter) : M S (Response unit) :=
  call (Update p fs)
       (fun w =>
          (mkResponse None None,
           with_table (map (fun r => if selected fs r then apply_patch p r else r)
                           (table w)) w)).

(** Modelled from the spec: [delete], [.delete()] with filters. *)
Definition delete (fs : list Filter) : M S (Response unit) :=
  call (Delete fs)
       (fun w =>
          (mkResponse None None,
           with_table (filter (fun r => negb (selected fs r)) (table w)) w)).

End Calls.

End Supabase.

(** [JSON.parse(s)] inside a handler: a parse failure is a thrown
    [SyntaxError]. *)
Definition JSON_parse_throwing `{JSON} {S : Type} (s : string) : M S JsValue :=
  match JSON_parse s with
  | Some v => ret v
  | None => throw (SyntaxError "JSON.parse")
  end.

(* ===================================================================== *)
(** * The read-only view page *)
(* ===================================================================== *)

Module ViewDocumentPage.

Record State : Type := mkState {
  document : option Row;
  isLoading : bool
}.

(** The [useState] defaults. *)
Definition initial : State := mkState None true.

Definition setDocument (d : option Row) : M State unit :=
  set_state (fun s => mkState d (isLoading s)).
Definition setIsLoading (b : bool) : M State unit :=
  set_state (fun s => mkState (document s) b).

Definition fetchDocument (params_id : string) : M State unit :=
  setIsLoading true ;;
  try_catch_finally
    (r <- Supabase.select_single [("id", Some params_id)] ;;
     match error r with
     | Some e => throw e
     | None =>
         match data r with
         | None => router_push "/"
         | Some d =>
             (* Only allow viewing published documents *)
             if negb (DocumentData.status d =? "published")%string then
               toast "Access denied" "This document is not published for viewing"
                     destructive ;;
               router_push "/"
             else
               setDocument (Some d)
         end
     end)
    (fun e =>
       console_error "Error fetching document:" e ;;
       toast "Error" "Failed to fetch document" destructive ;;
       router_push "/")
    (setIsLoading false).

(** What the component returns. *)
Inductive View : Type :=
| Spinner
| Blank                                            (* [return null] *)
| ReadOnly (heading : string) (initialContent : JsValue).
                                 (* the title and a non-editable editor *)

(** The branch of the render that shows a document: the content is
    parsed here, while rendering, when it is a string. *)
Definition show `{JSON} (d : Row) : Result View :=
  match DocumentData.content d with
  | JStr s =>
      match JSON_parse s with
      | Some v => Done (ReadOnly (DocumentData.title d) v)
      | None => Thrown (SyntaxError "JSON.parse")
      end
  | v => Done (ReadOnly (DocumentData.title d) v)
  end.

Definition render `{JSON} (st : State) : Result View :=
  if isLoading st then Done Spinner
  else match document st with
       | None => Done Blank
       | Some d => show d
       end.

(** [useEffect(() => { fetchDocument() }, [params.id])]: the fetch does
    not wait for a user. *)
Definition on_mount (params_id : string) : M State unit :=
  fetchDocument params_id.

End ViewDocumentPage.

(* ===================================================================== *)
(** * The editor page *)
(* ===================================================================== *)

Module DocumentPage.

Record State : Type := mkState {
  document : option Row;
  title : string;
  content : JsValue;
  status : string;
  isLoading : bool;
  isSaving : bool
}.

(** The [useState] defaults. *)
Definition initial : State := mkState None "" JNull "draft" true false.

Definition setDocument (d : option Row) : M State unit :=
  set_state (fun s => mkState d (title s) (content s) (status s) (isLoading s) (isSaving s)).
Definition with_title (t : string) (s : State) : State :=
  mkState (document s) t (content s) (status s) (isLoading s) (isSaving s).
Definition with_content (c : JsValue) (s : State) : State :=
  mkState (document s) (title s) c (status s) (isLoading s) (isSaving s).
Definition setTitle (t : string) : M State unit := set_state (with_title t).
Definition setContent (c : JsValue) : M State unit := set_state (with_content c).
Definition setStatus (x : string) : M State unit :=
  set_state (fun s => mkState (document s) (title s) (content s) x (isLoading s) (isSaving s)).
Definition setIsLoading (b : bool) : M State unit :=
  set_state (fun s => mkState (document s) (title s) (content s) (status s) b (isSaving s)).
Definition setIsSaving (b : bool) : M State unit :=
  set_state (fun s => mkState (document s) (title s) (content s) (status s) (isLoading s) b).

Section Handlers.
Context `{JSON}.

Definition fetchDocument (params_id : string) : M State unit :=
  setIsLoading true ;;
  try_catch_finally
    (r <- Supabase.select_single [("id", Some params_id)] ;;
     match error r with
     | Some e => throw e
     | None =>
         match data r with
         | None => router_push "/dashboard"
         | Some d =>
             setDocument (Some d) ;;
             setTitle (DocumentData.title d) ;;
             c <- match DocumentData.content d with
                  | JStr s => JSON_parse_throwing s
                  | v => ret v
                  end ;;
             setContent c ;;
             setStatus (DocumentData.status d)
         end
     end)
    (fun e =>
       console_error "Error fetching document:" e ;;
       toast "Error" "Failed to fetch document" destructive ;;
       router_push "/dashboard")
    (setIsLoading false).

(** [typeof content === "string" ? content : JSON.stringify(content)] *)
Definition serialized (c : JsValue) : string :=
  match c with
  | JStr s => s
  | v => JSON_stringify v
  end.

(** The handlers below read [document], [title], [content], [status]
    and [user] from the render they were created in: the snapshot
    [st] and the [user] of the auth context. *)
Definition saveDocument (st : State) (user : option Auth.User) : M State unit :=
  match document st, user with
  | Some doc, Some _ =>
      setIsSaving true ;;
      try_catch_finally
        (now <- new_Date ;;
         r <- Supabase.update
                (mkPatch (Some (title st))
                         (Some (serialized (content st)))
                         (Some (status st))
                         (Some now))
                [("id", Some (DocumentData.id doc))] ;;
         match error r with
         | Some e => throw e
         | None => ret tt
         end)
        (fun e =>
           console_error "Error saving document:" e ;;
           toast "Error" "Failed to save document" destructive)
        (setIsSaving false)
  | _, _ => ret tt
  end.

Definition handleStatusChange (st : State) (newStatus : string) : M State unit :=
  setStatus newStatus ;;
  try_catch
    (now <- new_Date ;;
     r <- Supabase.update
            (mkPatch None None (Some newStatus) (Some now))
            [("id", option_map DocumentData.id (document st))] ;;
     match error r with
     | Some e => throw e
     | None =>
         toast "Status updated"
               ("Document is now " ++
                (if (newStatus =? "published")%string then "published"
                 else "saved as draft"))
               default_variant
     end)
    (fun e =>
       console_error "Error updating status:" e ;;
       toast "Error" "Failed to update document status" destructive).

Definition handleManualSave (st : State) (user : option Auth.User) : M State unit :=
  saveDocument st user ;;
  toast "Document saved" "Your document has been saved successfully" default_variant.

(** [useEffect(() => { if (user) { fetchDocument() } }, [user, params.id])] *)
Definition on_user (user : option Auth.User) (params_id : string) : M State unit :=
  match user with
  | Some _ => fetchDocument params_id
  | None => ret tt
  end.

End Handlers.

(** What the component returns: the spinner, or the page with the title
    input, the status select, the save button and, when [content] is
    truthy, the editor on [content]. *)
Inductive View : Type :=
| Spinner
| Page (title_input status_select : string) (saving : bool)
       (editor : option JsValue).

Definition render (st : State) : View :=
  if isLoading st then Spinner
  else Page (title st) (status st) (isSaving st)
            (if truthy (content st) then Some (content st) else None).

(** Copies the shareable link of the loaded document to the clipboard. *)
Definition shareDocument (origin : string) (st : State) : M Clipboard unit :=
  match document st with
  | None => ret tt
  | Some doc =>
      clipboard_writeText (shareableLink origin (DocumentData.id doc)) ;;
      toast "Link copied" "Shareable link copied to clipboard" default_variant
  end.

End DocumentPage.

(* ===================================================================== *)
(** * The dashboard *)
(* ===================================================================== *)

Module DashboardPage.

Record State : Type := mkState {
  documents : list Row;
  searchQuery : string;
  statusFilter : string;
  isLoading : bool
}.

(** The [useState] defaults. *)
Definition initial : State := mkState [] "" "all" true.

Definition setDocuments (l : list Row) : M State unit :=
  set_state (fun s => mkState l (searchQuery s) (statusFilter s) (isLoading s)).
Definition setSearchQuery (q : string) : M State unit :=
  set_state (fun s => mkState (documents s) q (statusFilter s) (isLoading s)).
Definition setStatusFilter (f : string) : M State unit :=
  set_state (fun s => mkState (documents s) (searchQuery s) f (isLoading s)).
Definition setIsLoading (b : bool) : M State unit :=
  set_state (fun s => mkState (documents s) (searchQuery s) (statusFilter s) b).

(** The query carries an order and no filter.  A response without an
    error carries the rows; the list-typed state holds no rows
    otherwise. *)
Definition fetchDocuments : M State unit :=
  setIsLoading true ;;
  try_catch_finally
    (r <- Supabase.select [] (Some ("updated_at", false)) ;;
     match error r with
     | Some e => throw e
     | None =>
         setDocuments (match data r with Some rows => rows | None => [] end)
     end)
    (fun e =>
       console_error "Error fetching documents:" e ;;
       toast "Error" "Failed to fetch documents" destructive)
    (setIsLoading false).

(** [useEffect(() => { if (user) { fetchDocuments() } }, [user])] *)
Definition on_user (user : option Auth.User) : M State unit :=
  match user with
  | Some _ => fetchDocuments
  | None => ret tt
  end.

(** [{ type: "doc", content: [{ type: "paragraph",
       content: [{ type: "text", text: "" }] }] }] *)
Definition empty_document : JsValue :=
  JObj [("type", JStr "doc");
        ("content",
         JArr [JObj [("type", JStr "paragraph");
                     ("content",
                      JArr [JObj [("type", JStr "text"); ("text", JStr "")]])]])].

Definition createNewDocument `{JSON} (user : option Auth.User) : M State unit :=
  try_catch
    (r <- Supabase.insert
            [mkNewRow "Untitled Document"
                      (JSON_stringify empty_document)
                      (option_map Auth.id user)
                      "draft"] ;;
     match error r with
     | Some e => throw e
     | None =>
         match data r with
         | Some (d :: _) => router_push ("/document/" ++ DocumentData.id d)
         | _ => ret tt
         end
     end)
    (fun e =>
       console_error "Error creating document:" e ;;
       toast "Error" "Failed to create new document" destructive).

Definition deleteDocument (st : State) (id : string) : M State unit :=
  try_catch
    (r <- Supabase.delete [("id", Some id)] ;;
     match error r with
     | Some e => throw e
     | None =>
         setDocuments
           (filter (fun doc => negb (DocumentData.id doc =? id)%string) (documents st)) ;;
         toast "Success" "Document deleted successfully" default_variant
     end)
    (fun e =>
       console_error "Error deleting document:" e ;;
       toast "Error" "Failed to delete document" destructive).

Section Search.
Context `{JSString}.

Definition matchesSearch (st : State) (doc : Row) : bool :=
  includes (toLowerCase (DocumentData.title doc)) (toLowerCase (searchQuery st)).

Definition matchesStatus (st : State) (doc : Row) : bool :=
  (statusFilter st =? "all")%string || (DocumentData.status doc =? statusFilter st)%string.

Definition filteredDocuments (st : State) : list Row :=
  filter (fun doc => matchesSearch st doc && matchesStatus st doc) (documents st).

(** Copies the shareable link of a listed document to the clipboard. *)
Definition shareDocument (origin id : string) : M Clipboard unit :=
  clipboard_writeText (shareableLink origin id) ;;
  toast "Link copied" "Shareable link copied to clipboard" default_variant.

(** What the card shows under the search field: the spinner, the
    "No documents found" panel with its hint, or the table of the
    filtered documents. *)
Inductive Body : Type :=
| Loading
| NoDocumentsFound (hint : string)
| Table (rows : list Row).

Definition body (st : State) : Body :=
  if isLoading st then Loading
  else if (length (filteredDocuments st) =? 0)%nat then
    NoDocumentsFound
      (if (length (documents st) =? 0)%nat
       then "You haven't created any documents yet"
       else "No documents match your search criteria")
  else Table (filteredDocuments st).

(** The footer:
    [{filteredDocuments.length} document{filteredDocuments.length !== 1 ? "s" : ""}] *)
Definition footer (st : State) : string :=
  let n := length (filteredDocuments st) in
  NilEmpty.string_of_uint (Nat.to_uint n) ++ " document" ++
  (if negb (n =? 1)%nat then "s" else "").

End Search.

End DashboardPage.

(* ===================================================================== *)
(** * Debounced autosave *)
(* ===================================================================== *)

Module UseDebounce.

(** Modelled from the spec: the hook [useDebounce(value, delay)] of
    [@/hooks/use-debounce].  It emits a settled value only after a quiet
    interval of [delay] with no further change: on every new value any
    pending timer is cancelled and restarted, and only the last value
    within a quiet window is ever emitted. *)
Record t (A : Type) : Type := mk {
  debouncedValue : A;                   (* what the hook returns *)
  timer : option (Timestamp * A)        (* the pending timer: deadline, value *)
}.
Arguments mk {A} debouncedValue timer.

(** Modelled from the spec: the first render returns the value itself,
    with nothing pending. *)
Definition init {A} (v : A) : t A := mk v None.

(** Modelled from the spec: a new value at instant [now] drops the
    pending timer, if any, and starts a new one. *)
Definition change {A} (now : Timestamp) (delay : Z) (v : A) (d : t A) : t A :=
  mk (debouncedValue d) (Some (now + delay, v)).

(** Modelled from the spec: the deadline of the pending timer, when it
    has passed by [now]. *)
Definition due {A} (now : Timestamp) (d : t A) : option Timestamp :=
  match timer d with
  | Some (deadline, _) => if deadline <=? now then Some deadline else None
  | None => None
  end.

(** Modelled from the spec: the timer fires and its value becomes the
    settled one. *)
Definition fire {A} (d : t A) : t A :=
  match timer d with
  | Some (_, v) => mk v None
  | None => d
  end.

End UseDebounce.

Module EditorSession.

Import DocumentPage.

(** [useDebounce(content, 1000)], [useDebounce(title, 1000)] *)
Definition delay : Z := 1000.

(** The editor page together with its two debounce hooks. *)
Record t : Type := mk {
  page : State;
  debouncedContent : UseDebounce.t JsValue;
  debouncedTitle : UseDebounce.t string
}.

(** A page at rest: both hooks settled on the current values. *)
Definition at_rest (st : State) : t :=
  mk st (UseDebounce.init (content st)) (UseDebounce.init (title st)).

(** What the user does: the editor reports a new tree
    ([onChange={setContent}]), or the title input a new text
    ([onChange={(e) => setTitle(e.target.value)}]). *)
Inductive Input : Type :=
| TypeContent (tree : JsValue)
| TypeTitle (text : string).

(** A state setter re-renders only when the value differs; the hook of
    the changed value then restarts its timer. *)
Definition input (now : Timestamp) (i : Input) (s : t) : t :=
  match i with
  | TypeContent v =>
      if Object_is (content (page s)) v then s
      else mk (with_content v (page s))
              (UseDebounce.change now delay v (debouncedContent s))
              (debouncedTitle s)
  | TypeTitle x =>
      if (title (page s) =? x)%string then s
      else mk (with_title x (page s))
              (debouncedContent s)
              (UseDebounce.change now delay x (debouncedTitle s))
  end.

Section Autosave.
Context `{JSON}.
Variable user : option Auth.User.

(** The effect on [[debouncedContent, debouncedTitle]]:
    [if (debouncedContent && document) { saveDocument() }]. *)
Definition autosave (s : t) : M State unit :=
  if truthy (UseDebounce.debouncedValue (debouncedContent s))
     && match document (page s) with Some _ => true | None => false end
  then saveDocument (page s) user
  else ret tt.

(** Runs the effect at instant [now] and keeps the page state it
    leaves. *)
Definition run_effect (now : Timestamp) (s : t) (w : World) : t * World :=
  let '(_, p, w') := autosave s (page s) (with_clock now w) in
  (mk p (debouncedContent s) (debouncedTitle s), w').

(** The content timer fires: the settled content changes, and when it
    did change the effect runs. *)
Definition settle_content (s : t) (w : World) : t * World :=
  match UseDebounce.timer (debouncedContent s) with
  | None => (s, w)
  | Some (deadline, v) =>
      let s1 := mk (page s) (UseDebounce.fire (debouncedContent s)) (debouncedTitle s) in
      if Object_is (UseDebounce.debouncedValue (debouncedContent s)) v
      then (s1, w)
      else run_effect deadline s1 w
  end.

Definition settle_title (s : t) (w : World) : t * World :=
  match UseDebounce.timer (debouncedTitle s) with
  | None => (s, w)
  | Some (deadline, x) =>
      let s1 := mk (page s) (debouncedContent s) (UseDebounce.fire (debouncedTitle s)) in
      if (UseDebounce.debouncedValue (debouncedTitle s) =? x)%string
      then (s1, w)
      else run_effect deadline s1 w
  end.

(** Time passes until [now]: the timers whose deadline has come fire,
    the earlier deadline first. *)
Definition advance (now : Timestamp) (s : t) (w : World) : t * World :=
  let '(s', w') :=
    match UseDebounce.due now (debouncedContent s),
          UseDebounce.due now (debouncedTitle s) with
    | Some dc, Some dt =>
        if dc <=? dt
        then let '(s1, w1) := settle_content s w in settle_title s1 w1
        else let '(s1, w1) := settle_title s w in settle_content s1 w1
    | Some _, None => settle_content s w
    | None, Some _ => settle_title s w
    | None, None => (s, w)
    end in
  (s', with_clock now w').

(** A timed sequence of inputs, then quiet until [horizon]. *)
Fixpoint run (inputs : list (Timestamp * Input)) (horizon : Timestamp)
         (s : t) (w : World) : t * World :=
  match inputs with
  | [] => advance horizon s w
  | (now, i) :: rest =>
      let '(s1, w1) := advance now s w in
      run rest horizon (input now i s1) w1
  end.

End Autosave.

End EditorSession.

(* ===================================================================== *)
(** * The sign-in page *)
(* ===================================================================== *)

Module LoginPage.

(** [useEffect(() => { if (user && !isLoading) { router.push("/dashboard") } },
      [user, isLoading, router])] *)
Definition on_auth (user : option Auth.User) (isLoading : bool) : M unit unit :=
  match user with
  | Some _ => if negb isLoading then router_push "/dashboard" else ret tt
  | None => ret tt
  end.

End LoginPage.

(* ===================================================================== *)
(** * The link popover of the editor toolbar *)
(* ===================================================================== *)

Module TiptapEditor.

Record State : Type := mkState {
  linkUrl : string;
  linkOpen : bool
}.

(** The [useState] defaults. *)
Definition initial : State := mkState "" false.

(** The steps of an [editor.chain() ... .run()] the popover sends. *)
Inductive Command : Type :=
| Focus
| ExtendMarkRange (mark : string)
| SetLink (href : string)
| UnsetLink.

(** A handler of the popover: the state it leaves and the chains it
    ran on the editor, oldest first. *)
Definition Handler : Type := State -> State * list (list Command).

Definition setLinkUrl (url : string) : Handler :=
  fun st => (mkState url (linkOpen st), []).

Definition setLinkOpen (open : bool) : Handler :=
  fun st => (mkState (linkUrl st) open, []).

(** [if (linkUrl) { ...setLink({ href: linkUrl }).run() }
     setLinkUrl(""); setLinkOpen(false)] *)
Definition setLink : Handler :=
  fun st =>
    (mkState "" false,
     if (linkUrl st =? "")%string then []
     else [[Focus; ExtendMarkRange "link"; SetLink (linkUrl st)]]).

(** [...unsetLink().run(); setLinkOpen(false)] *)
Definition removeLink : Handler :=
  fun st =>
    (mkState (linkUrl st) false,
     [[Focus; ExtendMarkRange "link"; UnsetLink]]).

(** [onKeyDown={(e) => { if (e.key === "Enter") { setLink() } }}] *)
Definition onKeyDown (key : string) : Handler :=
  fun st => if (key =? "Enter")%string then setLink st else (st, []).

(** One handler after the other, each on the state the one before left. *)
Definition and_then (h1 h2 : Handler) : Handler :=
  fun st =>
    let '(st1, chains1) := h1 st in
    let '(st2, chains2) := h2 st1 in
    (st2, (chains1 ++ chains2)%list).

End TiptapEditor.

(* ===================================================================== *)
(** * Sample data *)
(* ===================================================================== *)

Module Samples.

Definition alice : Auth.User := Auth.mkUser "alice".

(** The dashboard example: three documents and a filter. *)
Definition plan_a : Row :=
  DocumentData.mk "1" "Plan A" (JStr "{}") "draft" (Some "alice") 10 30.
Definition plan_b : Row :=
  DocumentData.mk "2" "Plan B" (JStr "{}") "published" (Some "alice") 20 20.
Definition notes : Row :=
  DocumentData.mk "3" "Notes" (JStr "{}") "draft" (Some "alice") 5 40.

Definition dashboard : DashboardPage.State :=
  DashboardPage.mkState [plan_a; plan_b; notes] "Plan" "draft" false.

(** A store that is up, holding the three documents. *)
Definition world : World :=
  mkWorld [plan_a; plan_b; notes] None 1000 ["4"; "5"] [] [].

(** A published document whose stored content is not JSON. *)
Definition broken : Row :=
  DocumentData.mk "9" "Broken" (JStr "{") "published" (Some "alice") 1 2.

Definition world_broken : World :=
  mkWorld [plan_a; broken] None 1000 ["10"] [] [].

(** A store shared by two users: a document of alice, a published
    document of bob. *)
Definition bob : Auth.User := Auth.mkUser "bob".

Definition report : Row :=
  DocumentData.mk "7" "Report" (JStr "{}") "published" (Some "bob") 50 60.

Definition world_shared : World :=
  mkWorld [plan_a; report] None 1000 ["8"] [] [].

(** An editing session on Plan A: the tree the editor reports after each
    keystroke, and a burst of four of them. *)
Definition tree (revision : Z) : JsValue :=
  JObj [("type", JStr "doc"); ("revision", JNum revision)].

Definition editing : DocumentPage.State :=
  DocumentPage.mkState (Some plan_a) "Plan A" (tree 0) "draft" false false.

Definition burst : list (Timestamp * EditorSession.Input) :=
  [(0, EditorSession.TypeContent (tree 1));
   (100, EditorSession.TypeContent (tree 2));
   (300, EditorSession.TypeContent (tree 3));
   (950, EditorSession.TypeContent (tree 4))].

Definition world_at_0 : World :=
  mkWorld [plan_a; plan_b; notes] None 0 ["4"; "5"] [] [].

(** A document whose stored content is the JSON text [null]. *)
Definition memo : Row :=
  DocumentData.mk "6" "Memo" (JStr "null") "draft" (Some "alice") 1 2.

Definition world_memo : World :=
  mkWorld [memo] None 0 ["7"] [] [].

(** The editor page once it has loaded the memo: the content is [null]. *)
Definition memo_page : DocumentPage.State :=
  DocumentPage.mkState (Some memo) "Memo" JNull "draft" false false.

(** The same store during an outage. *)
Definition world_down : World :=
  mkWorld [plan_a; plan_b; notes] (Some (PostgrestError "503")) 1000 ["4"; "5"] [] [].

End Samples.

(* ===================================================================== *)
(** * Situations *)
(* ===================================================================== *)

(** The store is up and holds exactly one row of id [params_id], the row
    [d]: a fetch by that id finds [d]. *)
Definition holds_document (w : World) (params_id : string) (d : Row) : Prop :=
  outage w = None /\
  filter (Supabase.selected [("id", Some params_id)]) (table w) = [d].

(** The row belongs to the user. *)
Definition owned_by (u : Auth.User) (r : Row) : Prop :=
  DocumentData.user_id r = Some (Auth.id u).

(** Most recently updated first. *)
Definition newest_first (a b : Row) : Prop :=
  DocumentData.updated_at b <= DocumentData.updated_at a.

(** [typeof v === "object"] for a non-null [v]: an object or an array. *)
Definition is_object (v : JsValue) : bool :=
  match v with
  | JObj _ | JArr _ => true
  | _ => false
  end.

(** Edits of the content coming one after the other, each less than the
    quiet interval after the one before it, the first one after [prev]. *)
Fixpoint within_quiet_interval (prev : Timestamp) (edits : list (Timestamp * JsValue))
  : Prop :=
  match edits with
  | [] => True
  | (t, _) :: rest =>
      prev <= t < prev + EditorSession.delay /\ within_quiet_interval t rest
  end.

Definition typed (edits : list (Timestamp * JsValue))
  : list (Timestamp * EditorSession.Input) :=
  map (fun e => (fst e, EditorSession.TypeContent (snd e))) edits.

(** The update a save of the page sends at instant [now]. *)
Definition save_call `{JSON} (st : DocumentPage.State) (doc : Row) (now : Timestamp)
  : StoreCall :=
  Update (mkPatch (Some (DocumentPage.title st))
                  (Some (DocumentPage.serialized (DocumentPage.content st)))
                  (Some (DocumentPage.status st))
                  (Some now))
         [("id", Some (DocumentData.id doc))].

(** The trigger rule without its guard: with a document loaded and a user
    signed in, whenever time passes and the settled title or the settled
    content is another value afterwards, a request has been sent. *)
Definition every_settled_change_saves : Prop :=
  forall (J : JSON) (u : Auth.User) (doc : Row) (now : Timestamp)
         (s : EditorSession.t) (w : World),
    DocumentPage.document (EditorSession.page s) = Some doc ->
    let '(s', w') := EditorSession.advance (Some u) now s w in
    (UseDebounce.debouncedValue (EditorSession.debouncedTitle s') <>
       UseDebounce.debouncedValue (EditorSession.debouncedTitle s) \/
     UseDebounce.debouncedValue (EditorSession.debouncedContent s') <>
       UseDebounce.debouncedValue (EditorSession.debouncedContent s)) ->
    calls w' <> calls w.

(** The text of a JSON string literal: [s] between double quotes, for
    an [s] that needs no escaping. *)
Definition quoted (s : string) : string :=
  String dquote (s ++ String dquote EmptyString).

(** The serialized [DashboardPage.empty_document], written out:
    an object of type doc whose content is one paragraph whose content is
    one text node of empty text. *)
Definition empty_document_text : string :=
  "{" ++ quoted "type" ++ ":" ++ quoted "doc" ++ "," ++
  quoted "content" ++ ":[{" ++ quoted "type" ++ ":" ++ quoted "paragraph" ++ "," ++
  quoted "content" ++ ":[{" ++ quoted "type" ++ ":" ++ quoted "text" ++ "," ++
  quoted "text" ++ ":" ++ quoted "" ++ "}]}]}".

(** The blocks of a document tree: the items of the [content] field of a
    node. *)
Definition children (node : JsValue) : list JsValue :=
  match node with
  | JObj fields =>
      match find (fun kv => (fst kv =? "content")%string) fields with
      | Some (_, JArr items) => items
      | _ => []
      end
  | _ => []
  end.

Definition node_type (node : JsValue) : option string :=
  match node with
  | JObj fields =>
      match find (fun kv => (fst kv =? "type")%string) fields with
      | Some (_, JStr t) => Some t
      | _ => None
      end
  | _ => None
  end.

(** The text a tree holds: the [text] fields of its nodes, in order. *)
Fixpoint text_of (node : JsValue) : string :=
  match node with
  | JObj fields =>
      String.concat EmptyString
        (map (fun kv =>
                match snd kv with
                | JStr t => if (fst kv =? "text")%string then t else EmptyString
                | _ => text_of (snd kv)
                end) fields)
  | JArr items => String.concat EmptyString (map text_of items)
  | _ => EmptyString
  end.

(** The tree a stored content stands for: the parse of the text, or the
    structure itself. *)
Definition decoded `{JSON} (c : JsValue) : option JsValue :=
  match c with
  | JStr s => JSON_parse s
  | v => Some v
  end.

(** A fetch by [params_id] fails with [e]: the store is down, or it does
    not hold exactly one row of that id. *)
Definition fetch_fails (w : World) (params_id : string) (e : Error) : Prop :=
  outage w = Some e \/
  (outage w = None /\
   length (filter (Supabase.selected [("id", Some params_id)]) (table w)) <> 1%nat /\
   e = PostgrestError "PGRST116").

(** The world a handler leaves. *)
Definition world_after {S A : Type} (m : M S A) (s : S) (w : World) : World :=
  snd (m s w).

(** The state a handler leaves. *)
Definition state_after {S A : Type} (m : M S A) (s : S) (w : World) : S :=
  snd (fst (m s w)).


(** A document whose stored content is a JSON string literal, the text
    [hello] between double quotes, in a store of its own, and the editor
    page once it has loaded it: the content is the string [hello]. *)
Definition greeting : Row :=
  DocumentData.mk "11" "Greeting" (JStr (String dquote ("hello" ++ String dquote EmptyString)))
                  "draft" (Some "alice") 1 2.

Definition world_greeting : World :=
  mkWorld [greeting] None 0 ["12"] [] [].

Definition greeting_page : DocumentPage.State :=
  DocumentPage.mkState (Some greeting) "Greeting" (JStr "hello") "draft" false false.

(** The dashboard state with another query and status filter. *)
Definition searching (q f : string) (st : DashboardPage.State) : DashboardPage.State :=
  DashboardPage.mkState (DashboardPage.documents st) q f (DashboardPage.isLoading st).

(** Every document of the listing is a draft or published. *)
Definition statuses_known (st : DashboardPage.State) : Prop :=
  Forall (fun doc => DocumentData.status doc = "draft" \/
                     DocumentData.status doc = "published")
         (DashboardPage.documents st).

(* ===================================================================== *)
(** * Lists and strings *)
(* ===================================================================== *)

Lemma negb_string_eqb_true (a b : string) : negb (a =? b)%string = true <-> a <> b.
Proof. rewrite negb_true_iff. apply String.eqb_neq. Qed.

(* ===================================================================== *)
(** * The dashboard filter *)
(* ===================================================================== *)

(** C9.  The dashboard shows exactly the documents of the listing whose
    lower-cased title contains the lower-cased query and whose status is
    the selected one, the filter ["all"] accepting every status; on Plan A
    (draft), Plan B (published) and Notes (draft), the query ["Plan"] with
    the filter ["draft"] leaves Plan A alone. *)
Theorem dashboard_filter_keeps_matching_documents `{JSString} :
  (forall (st : DashboardPage.State) (doc : Row),
      In doc (DashboardPage.filteredDocuments st) <->
      In doc (DashboardPage.documents st) /\
      includes (toLowerCase (DocumentData.title doc))
               (toLowerCase (DashboardPage.searchQuery st)) = true /\
      (DashboardPage.statusFilter st = "all" \/
       DocumentData.status doc = DashboardPage.statusFilter st)) /\
  (forall (st : DashboardPage.State) (doc : Row),
      DashboardPage.statusFilter st = "all" ->
      DashboardPage.matchesStatus st doc = true) /\
  DashboardPage.filteredDocuments Samples.dashboard = [Samples.plan_a] /\
  map DocumentData.title (DashboardPage.filteredDocuments Samples.dashboard) = ["Plan A"].
Proof.
  assert (Hplan : DashboardPage.filteredDocuments Samples.dashboard = [Samples.plan_a]).
  { unfold DashboardPage.filteredDocuments, DashboardPage.matchesSearch. simpl.
    rewrite !toLowerCase_ascii by reflexivity. reflexivity. }
  split; [| split; [| split; [exact Hplan | rewrite Hplan; reflexivity]]].
  - intros st doc. unfold DashboardPage.filteredDocuments.
    rewrite filter_In, andb_true_iff.
    unfold DashboardPage.matchesSearch, DashboardPage.matchesStatus.
    rewrite orb_true_iff, !String.eqb_eq. tauto.
  - intros st doc Hall. unfold DashboardPage.matchesStatus.
    rewrite Hall. reflexivity.
Qed.

(* ===================================================================== *)
(** * Running handlers *)
(* ===================================================================== *)

(** Unfolds the monad and the store calls, so that a handler reduces to
    its case analysis on the world. *)
Ltac unfold_handler :=
  unfold try_catch, try_catch_finally, bind, ret, throw, set_state,
    console_error, toast, router_push, emit, new_Date,
    Supabase.select, Supabase.select_single, Supabase.insert,
    Supabase.update, Supabase.delete, Supabase.call in *.

Arguments Supabase.selected : simpl never.
Arguments Supabase.ordered : simpl never.
Arguments Supabase.apply_patch : simpl never.

Lemma selected_by_id (i : string) (r : Row) :
  Supabase.selected [("id", Some i)] r = (DocumentData.id r =? i)%string.
Proof.
  unfold Supabase.selected, Supabase.matches, Supabase.column. simpl.
  apply andb_true_r.
Qed.

(* ===================================================================== *)
(** * Deleting from the dashboard *)
(* ===================================================================== *)

(** C6.  A delete handler works on the listing of the render it was
    started from.  When its call succeeds, the store loses the rows of
    that id and the page's listing becomes that render's listing without
    the documents of that id, which holds no document of that id; when
    the listing has not changed since that render, these are the
    documents listed before, each other one kept in its place.  When the
    call fails, the page and the store are as before.  Two deletes
    started from one render undo each other on the page: from Plan A,
    Plan B and Notes, deleting Plan A and then Plan B leaves the page
    listing Plan A and Notes, while the store holds Notes alone. *)
Theorem delete_filters_the_rendered_listing
  (st live : DashboardPage.State) (id : string) (w : World) :
  let '(r, st', w') := DashboardPage.deleteDocument st id live w in
  r = Done tt /\
  (outage w = None ->
   DashboardPage.documents st' =
     filter (fun doc => negb (DocumentData.id doc =? id)%string)
            (DashboardPage.documents st) /\
   ~ In id (map DocumentData.id (DashboardPage.documents st')) /\
   (DashboardPage.documents live = DashboardPage.documents st ->
    forall doc, In doc (DashboardPage.documents st') <->
                In doc (DashboardPage.documents live) /\ DocumentData.id doc <> id) /\
   (forall row, In row (table w') <->
                In row (table w) /\ DocumentData.id row <> id) /\
   trace w' =
     (trace w ++ [Toast "Success" "Document deleted successfully" default_variant])%list) /\
  (forall e, outage w = Some e ->
   st' = live /\
   table w' = table w /\
   trace w' = (trace w ++ [ConsoleError "Error deleting document:" e;
                           Toast "Error" "Failed to delete document" destructive])%list) /\
  (let '(_, shown, stored) :=
     (DashboardPage.deleteDocument Samples.dashboard "1" ;;
      DashboardPage.deleteDocument Samples.dashboard "2")
       Samples.dashboard Samples.world in
   DashboardPage.documents shown = [Samples.plan_a; Samples.notes] /\
   table stored = [Samples.notes]).
Proof.
  unfold DashboardPage.deleteDocument, DashboardPage.setDocuments.
  unfold_handler. simpl.
  destruct (outage w) as [e |] eqn:Hout; simpl.
  - split; [reflexivity |]. split; [discriminate |].
    split; [| split; reflexivity].
    intros e' He'. injection He' as <-.
    rewrite <- app_assoc. auto.
  - split; [reflexivity |]. split; [| split; [discriminate | split; reflexivity]].
    intros _. split; [reflexivity |].
    split; [| split; [| split; [| reflexivity]]].
    + rewrite in_map_iff. intros (doc & Hid & Hin).
      apply filter_In in Hin as [_ Hne].
      apply negb_string_eqb_true in Hne. contradiction.
    + intros Hsame doc. rewrite Hsame, filter_In, negb_string_eqb_true. tauto.
    + intros row. rewrite filter_In.
      rewrite selected_by_id, negb_string_eqb_true. tauto.
Qed.

Lemma delete_filters_the_rendered_listing_witness :
  let '(r, st', w') :=
    DashboardPage.deleteDocument Samples.dashboard "2" Samples.dashboard Samples.world in
  DashboardPage.documents st' = [Samples.plan_a; Samples.notes] /\
  table w' = [Samples.plan_a; Samples.notes].
Proof.
  pose proof (delete_filters_the_rendered_listing Samples.dashboard Samples.dashboard "2"
                Samples.world) as H.
  simpl in H. destruct H as (_ & Hok & _).
  destruct (Hok eq_refl) as (Hdocs & _).
  simpl. split; [exact Hdocs | reflexivity].
Defined.

(* ===================================================================== *)
(** * The visibility gate of the view page *)
(* ===================================================================== *)



(* ===================================================================== *)
(** * Stored content that does not parse *)
(* ===================================================================== *)

(** X23.  The editor page parses inside its [try]: a stored content that
    does not parse is caught, reported by a toast and answered by a navigation
    to the dashboard, and [content] stays [null], so no editor is
    rendered. *)
Lemma editor_page_parse_failure_is_caught
  `{JSON} (params_id : string) (d : Row) (s : string) (w : World) :
  holds_document w params_id d ->
  DocumentData.content d = JStr s ->
  JSON_parse s = None ->
  let '(r, st', w') := DocumentPage.fetchDocument params_id DocumentPage.initial w in
  r = Done tt /\
  DocumentPage.content st' = JNull /\
  DocumentPage.render st' =
    DocumentPage.Page (DocumentData.title d) "draft" false None /\
  trace w' =
    (trace w ++
     [ConsoleError "Error fetching document:" (SyntaxError "JSON.parse");
      Toast "Error" "Failed to fetch document" destructive;
      RouterPush "/dashboard"])%list.
Proof.
  intros [Hup Hrow] Hcontent Hparse.
  unfold DocumentPage.fetchDocument, DocumentPage.setIsLoading,
    DocumentPage.setDocument, DocumentPage.setTitle, DocumentPage.setContent,
    DocumentPage.setStatus, JSON_parse_throwing.
  unfold_handler. simpl. rewrite Hup, Hrow. simpl.
  rewrite Hcontent, Hparse. simpl.
  repeat split. rewrite <- !app_assoc. reflexivity.
Qed.

(** C3.  On the view page a published document whose stored content does
    not parse is fetched without any toast and without any navigation: the
    document is kept as it came, and the parse, done while rendering,
    throws out of the render.  Nothing treats the failure as a missing
    document there. *)
Theorem view_page_parse_failure_is_uncaught
  `{JSON} (params_id : string) (d : Row) (s : string) (w : World) :
  holds_document w params_id d ->
  DocumentData.status d = "published" ->
  DocumentData.content d = JStr s ->
  JSON_parse s = None ->
  let '(r, st', w') :=
    ViewDocumentPage.fetchDocument params_id ViewDocumentPage.initial w in
  r = Done tt /\
  ViewDocumentPage.document st' = Some d /\
  trace w' = trace w /\
  ViewDocumentPage.render st' = Thrown (SyntaxError "JSON.parse").
Proof.
  intros [Hup Hrow] Hstatus Hcontent Hparse.
  unfold ViewDocumentPage.fetchDocument, ViewDocumentPage.setIsLoading,
    ViewDocumentPage.setDocument.
  unfold_handler. simpl. rewrite Hup, Hrow. simpl.
  rewrite Hstatus. simpl.
  unfold ViewDocumentPage.render, ViewDocumentPage.show. simpl.
  rewrite Hcontent, Hparse. auto.
Qed.

Lemma view_page_parse_failure_is_uncaught_witness :
  let '(r, st', w') :=
    ViewDocumentPage.fetchDocument "9" ViewDocumentPage.initial Samples.world_broken in
  trace w' = [] /\
  ViewDocumentPage.render st' = Thrown (SyntaxError "JSON.parse").
Proof.
  assert (Hhold : holds_document Samples.world_broken "9" Samples.broken)
    by (split; reflexivity).
  pose proof (@view_page_parse_failure_is_uncaught reference_JSON "9" Samples.broken "{"
                Samples.world_broken Hhold eq_refl eq_refl eq_refl) as Hthrow.
  simpl in Hthrow. destruct Hthrow as (_ & _ & Htrace & Hrender).
  simpl. split; [exact Htrace | exact Hrender].
Defined.

Lemma editor_page_parse_failure_is_caught_witness :
  let '(r, st', w') :=
    DocumentPage.fetchDocument "9" DocumentPage.initial Samples.world_broken in
  trace w' =
    [ConsoleError "Error fetching document:" (SyntaxError "JSON.parse");
     Toast "Error" "Failed to fetch document" destructive;
     RouterPush "/dashboard"].
Proof.
  assert (Hhold : holds_document Samples.world_broken "9" Samples.broken)
    by (split; reflexivity).
  pose proof (@editor_page_parse_failure_is_caught reference_JSON "9" Samples.broken "{"
                Samples.world_broken Hhold eq_refl eq_refl) as Hcaught.
  simpl in Hcaught. destruct Hcaught as (_ & _ & _ & Htrace).
  simpl. exact Htrace.
Defined.

(* ===================================================================== *)
(** * Saving from the editor page *)
(* ===================================================================== *)

Ltac unfold_editor :=
  unfold DocumentPage.handleManualSave, DocumentPage.saveDocument,
    DocumentPage.handleStatusChange, DocumentPage.setIsSaving,
    DocumentPage.setStatus in *.

(** [saveDocument] catches what it throws: it always completes. *)
Lemma saveDocument_completes
  `{JSON} (st : DocumentPage.State) (user : option Auth.User)
  (s0 : DocumentPage.State) (w : World) :
  fst (fst (DocumentPage.saveDocument st user s0 w)) = Done tt.
Proof.
  unfold_editor.
  destruct (DocumentPage.document st); [destruct user |]; try reflexivity.
  unfold_handler. simpl.
  destruct (outage w); reflexivity.
Qed.

(** C5.  A save whose update call fails completes with the error logged
    and one destructive toast, and nothing else: no navigation is asked
    for, the title, the content, the status and the document in memory are
    what they were, the saving flag is down again, and the store is
    untouched. *)
Theorem failed_save_keeps_local_edits
  `{JSON} (st : DocumentPage.State) (doc : Row) (u : Auth.User) (e : Error) (w : World) :
  DocumentPage.document st = Some doc ->
  outage w = Some e ->
  let '(r, st', w') := DocumentPage.saveDocument st (Some u) st w in
  r = Done tt /\
  DocumentPage.title st' = DocumentPage.title st /\
  DocumentPage.content st' = DocumentPage.content st /\
  DocumentPage.status st' = DocumentPage.status st /\
  DocumentPage.document st' = DocumentPage.document st /\
  DocumentPage.isSaving st' = false /\
  table w' = table w /\
  trace w' =
    (trace w ++
     [ConsoleError "Error saving document:" e;
      Toast "Error" "Failed to save document" destructive])%list /\
  (forall route, In (RouterPush route) (trace w') -> In (RouterPush route) (trace w)).
Proof.
  intros Hdoc Hdown.
  unfold_editor. rewrite Hdoc. unfold_handler. simpl. rewrite Hdown. simpl.
  repeat split.
  - exact Hdoc.
  - rewrite <- app_assoc. reflexivity.
  - intros route Hin. rewrite <- app_assoc in Hin.
    apply in_app_or in Hin as [Hin | Hin]; [exact Hin |].
    simpl in Hin. destruct Hin as [Hin | [Hin | []]]; discriminate.
Qed.

Lemma failed_save_keeps_local_edits_witness :
  let st := DocumentPage.mkState (Some Samples.plan_a) "Plan A, revised"
                                 (JObj [("type", JStr "doc")]) "draft" false false in
  let '(r, st', w') :=
    DocumentPage.saveDocument st (Some Samples.alice) st Samples.world_down in
  DocumentPage.title st' = "Plan A, revised" /\
  DocumentPage.content st' = JObj [("type", JStr "doc")] /\
  trace w' =
    [ConsoleError "Error saving document:" (PostgrestError "503");
     Toast "Error" "Failed to save document" destructive].
Proof.
  pose proof (@failed_save_keeps_local_edits reference_JSON
                (DocumentPage.mkState (Some Samples.plan_a) "Plan A, revised"
                                      (JObj [("type", JStr "doc")]) "draft" false false)
                Samples.plan_a Samples.alice (PostgrestError "503") Samples.world_down
                eq_refl eq_refl) as Hfail.
  simpl in Hfail. destruct Hfail as (_ & Htitle & Hcontent & _ & _ & _ & _ & Htrace & _).
  simpl. repeat split; assumption.
Defined.

(** X24.  A status change whose update call fails asks for no navigation
    either; the title and the content are what they were and the status
    keeps the value just selected, while the store keeps the old one. *)
Lemma failed_status_change_keeps_local_edits
  `{JSON} (st : DocumentPage.State) (newStatus : string) (e : Error) (w : World) :
  outage w = Some e ->
  let '(r, st', w') := DocumentPage.handleStatusChange st newStatus st w in
  r = Done tt /\
  DocumentPage.title st' = DocumentPage.title st /\
  DocumentPage.content st' = DocumentPage.content st /\
  DocumentPage.status st' = newStatus /\
  table w' = table w /\
  trace w' =
    (trace w ++
     [ConsoleError "Error updating status:" e;
      Toast "Error" "Failed to update document status" destructive])%list.
Proof.
  intros Hdown.
  unfold_editor. unfold_handler. simpl. rewrite Hdown. simpl.
  repeat split. rewrite <- app_assoc. reflexivity.
Qed.

Lemma failed_status_change_keeps_local_edits_witness :
  let st := DocumentPage.mkState (Some Samples.plan_a) "Plan A" JNull "draft" false false in
  let '(r, st', w') :=
    DocumentPage.handleStatusChange st "published" st Samples.world_down in
  DocumentPage.status st' = "published" /\ table w' = table Samples.world_down.
Proof.
  pose proof (@failed_status_change_keeps_local_edits reference_JSON
                (DocumentPage.mkState (Some Samples.plan_a) "Plan A" JNull "draft" false false)
                "published" (PostgrestError "503") Samples.world_down eq_refl) as Hfail.
  simpl in Hfail. destruct Hfail as (_ & _ & _ & Hstatus & Htable & _).
  simpl. split; assumption.
Defined.

(** C10.  The manual save runs the save and then raises the toast
    "Document saved / Your document has been saved successfully",
    whatever the save did: after a failed update the toast follows the
    error toast, and when the save returned early, without any write, the
    toast is raised all the same. *)
Theorem manual_save_always_announces_success
  `{JSON} (st : DocumentPage.State) (user : option Auth.User)
  (s0 : DocumentPage.State) (w : World) :
  let '(_, s1, w1) := DocumentPage.saveDocument st user s0 w in
  let '(r, s', w') := DocumentPage.handleManualSave st user s0 w in
  r = Done tt /\
  s' = s1 /\
  trace w' =
    (trace w1 ++
     [Toast "Document saved" "Your document has been saved successfully"
            default_variant])%list /\
  (forall doc u e,
      DocumentPage.document st = Some doc -> user = Some u -> outage w = Some e ->
      table w' = table w /\
      trace w' =
        (trace w ++
         [ConsoleError "Error saving document:" e;
          Toast "Error" "Failed to save document" destructive;
          Toast "Document saved" "Your document has been saved successfully"
                default_variant])%list) /\
  (DocumentPage.document st = None \/ user = None ->
   calls w' = calls w /\
   trace w' =
     (trace w ++
      [Toast "Document saved" "Your document has been saved successfully"
             default_variant])%list).
Proof.
  unfold DocumentPage.handleManualSave.
  pose proof (saveDocument_completes st user s0 w) as Hdone.
  unfold bind at 1.
  destruct (DocumentPage.saveDocument st user s0 w) as [[r1 s1] w1] eqn:Hsave.
  simpl in Hdone. subst r1. unfold toast, emit. simpl.
  split; [reflexivity |]. split; [reflexivity |]. split; [reflexivity |].
  split.
  - intros doc u e Hdoc Huser Hdown. subst user.
    revert Hsave. unfold_editor. rewrite Hdoc. unfold_handler. simpl.
    rewrite Hdown. simpl. intros Hsave. injection Hsave as _ <-. simpl.
    split; [reflexivity |]. rewrite <- !app_assoc. reflexivity.
  - intros Hnone. revert Hsave. unfold_editor.
    destruct Hnone as [Hnone | Hnone]; rewrite Hnone.
    + unfold ret. intros Hsave. injection Hsave as _ <-. auto.
    + destruct (DocumentPage.document st); unfold ret;
        intros Hsave; injection Hsave as _ <-; auto.
Qed.

Lemma manual_save_always_announces_success_witness :
  let st := DocumentPage.mkState (Some Samples.plan_a) "Plan A" JNull "draft" false false in
  let '(r, s', w') :=
    DocumentPage.handleManualSave st (Some Samples.alice) st Samples.world_down in
  table w' = table Samples.world_down /\
  trace w' =
    [ConsoleError "Error saving document:" (PostgrestError "503");
     Toast "Error" "Failed to save document" destructive;
     Toast "Document saved" "Your document has been saved successfully" default_variant].
Proof.
  pose proof (@manual_save_always_announces_success reference_JSON
                (DocumentPage.mkState (Some Samples.plan_a) "Plan A" JNull "draft" false false)
                (Some Samples.alice)
                (DocumentPage.mkState (Some Samples.plan_a) "Plan A" JNull "draft" false false)
                Samples.world_down) as Hsave.
  simpl in Hsave. destruct Hsave as (_ & _ & _ & Hfail & _).
  destruct (Hfail Samples.plan_a Samples.alice (PostgrestError "503")
                  eq_refl eq_refl eq_refl) as [Htable Htrace].
  simpl. split; assumption.
Defined.

(* ===================================================================== *)
(** * What an update writes *)
(* ===================================================================== *)

(** The editor page reaches [greeting_page] by fetching the greeting. *)
Lemma greeting_page_is_fetched :
  @DocumentPage.fetchDocument reference_JSON "11" DocumentPage.initial world_greeting =
  (Done tt, greeting_page,
   log_call (Select [("id", Some "11")] None true) world_greeting).
Proof. reflexivity. Qed.




(* ===================================================================== *)
(** * Creating a document *)
(* ===================================================================== *)

(** C8.  With a user signed in and the store up and able to assign an id,
    creating a document sends one insert of one row and adds exactly one
    row to the table: the new id, the title "Untitled Document", the
    serialized [empty_document] as content, the status "draft" and the
    user's id as owner; the page then navigates to ["/document/<id>"] and
    raises no toast.  [empty_document] is a doc node with a single block, a
    paragraph holding no text, and the reference serializer writes it as
    [empty_document_text], which parses back to it. *)
Theorem create_inserts_default_draft
  `{JSON} (st : DashboardPage.State) (u : Auth.User) (w : World)
  (new_id : string) (ids : list string) :
  outage w = None ->
  id_supply w = new_id :: ids ->
  let '(r, st', w') := DashboardPage.createNewDocument (Some u) st w in
  r = Done tt /\
  st' = st /\
  calls w' =
    (calls w ++
     [Insert [mkNewRow "Untitled Document"
                       (JSON_stringify DashboardPage.empty_document)
                       (Some (Auth.id u)) "draft"]])%list /\
  table w' =
    (table w ++
     [DocumentData.mk new_id "Untitled Document"
                      (JStr (JSON_stringify DashboardPage.empty_document))
                      "draft" (Some (Auth.id u)) (clock w) (clock w)])%list /\
  length (table w') = S (length (table w)) /\
  trace w' = (trace w ++ [RouterPush ("/document/" ++ new_id)])%list /\
  node_type DashboardPage.empty_document = Some "doc" /\
  map node_type (children DashboardPage.empty_document) = [Some "paragraph"] /\
  text_of DashboardPage.empty_document = "" /\
  @JSON_stringify reference_JSON DashboardPage.empty_document = empty_document_text /\
  @JSON_parse reference_JSON empty_document_text = Some DashboardPage.empty_document.
Proof.
  intros Hup Hids.
  unfold DashboardPage.createNewDocument.
  unfold_handler. simpl. rewrite Hup, Hids. simpl.
  repeat split; try reflexivity.
  rewrite length_app. simpl. lia.
Qed.

Lemma create_inserts_default_draft_witness :
  let '(r, st', w') :=
    DashboardPage.createNewDocument (Some Samples.alice) Samples.dashboard Samples.world in
  table w' =
    [Samples.plan_a; Samples.plan_b; Samples.notes;
     DocumentData.mk "4" "Untitled Document" (JStr empty_document_text)
                     "draft" (Some "alice") 1000 1000] /\
  trace w' = [RouterPush "/document/4"].
Proof.
  pose proof (@create_inserts_default_draft reference_JSON Samples.dashboard Samples.alice
                Samples.world "4" ["5"] eq_refl eq_refl) as Hcreate.
  simpl in Hcreate. destruct Hcreate as (_ & _ & _ & Htable & _ & Htrace & _).
  simpl. split; [exact Htable | exact Htrace].
Defined.

(* ===================================================================== *)
(** * The dashboard listing *)
(* ===================================================================== *)

Lemma place_permutation (o : string * bool) (r : Row) (l : list Row) :
  Permutation (r :: l) (Supabase.place o r l).
Proof.
  induction l as [| x rest IH]; simpl.
  - apply Permutation_refl.
  - destruct (Supabase.before o r x).
    + apply Permutation_refl.
    + eapply perm_trans; [apply perm_swap |].
      apply perm_skip. exact IH.
Qed.

Lemma ordered_permutation (o : option (string * bool)) (l : list Row) :
  Permutation l (Supabase.ordered o l).
Proof.
  destruct o as [o |]; unfold Supabase.ordered; [| apply Permutation_refl].
  induction l as [| x rest IH]; simpl.
  - apply perm_nil.
  - eapply perm_trans; [apply perm_skip; exact IH |].
    apply place_permutation.
Qed.

Lemma place_head (r : Row) (l : list Row) (a : Row) :
  newest_first a r -> HdRel newest_first a l ->
  HdRel newest_first a (Supabase.place ("updated_at", false) r l).
Proof.
  intros Har Hal. destruct l as [| x rest]; simpl.
  - constructor. exact Har.
  - destruct (Supabase.before _ r x).
    + constructor. exact Har.
    + constructor. inversion Hal; assumption.
Qed.

Lemma place_sorted (r : Row) (l : list Row) :
  Sorted newest_first l ->
  Sorted newest_first (Supabase.place ("updated_at", false) r l).
Proof.
  induction l as [| x rest IH]; intros Hsorted; simpl.
  - repeat constructor.
  - destruct (Supabase.before ("updated_at", false) r x) eqn:Hbefore.
    + constructor; [exact Hsorted |]. constructor.
      unfold Supabase.before, Supabase.sort_key in Hbefore. simpl in Hbefore.
      unfold newest_first. lia.
    + inversion Hsorted as [| ? ? Hrest Hhead]; subst.
      constructor; [apply IH; exact Hrest |].
      apply place_head; [| exact Hhead].
      unfold Supabase.before, Supabase.sort_key in Hbefore. simpl in Hbefore.
      unfold newest_first. lia.
Qed.

Lemma ordered_newest_first (l : list Row) :
  Sorted newest_first (Supabase.ordered (Some ("updated_at", false)) l).
Proof.
  unfold Supabase.ordered.
  induction l as [| x rest IH]; simpl.
  - constructor.
  - apply place_sorted. exact IH.
Qed.

(** X25.  When the store is up, the dashboard sends one select ordered by
    [updated_at], newest first, and lists every row of the table, whoever
    owns it, most recently updated first. *)
Lemma fetchDocuments_lists_every_row (st : DashboardPage.State) (w : World) :
  outage w = None ->
  let '(r, st', w') := DashboardPage.fetchDocuments st w in
  r = Done tt /\
  calls w' = (calls w ++ [Select [] (Some ("updated_at", false)) false])%list /\
  Permutation (table w) (DashboardPage.documents st') /\
  Sorted newest_first (DashboardPage.documents st').
Proof.
  intros Hup.
  unfold DashboardPage.fetchDocuments, DashboardPage.setDocuments,
    DashboardPage.setIsLoading.
  unfold_handler. simpl. rewrite Hup. simpl.
  split; [reflexivity |]. split; [reflexivity |].
  assert (Hall : filter (Supabase.selected []) (table w) = table w).
  { clear. induction (table w) as [| x rest IH]; simpl; [reflexivity |].
    f_equal. exact IH. }
  rewrite Hall. split.
  - apply ordered_permutation.
  - apply ordered_newest_first.
Qed.

Lemma fetchDocuments_lists_every_row_witness :
  let '(r, st', w') :=
    DashboardPage.fetchDocuments DashboardPage.initial Samples.world in
  Permutation [Samples.plan_a; Samples.plan_b; Samples.notes]
              (DashboardPage.documents st').
Proof.
  pose proof (fetchDocuments_lists_every_row DashboardPage.initial Samples.world eq_refl)
    as Hlist.
  simpl in Hlist. destruct Hlist as (_ & _ & Hperm & _).
  simpl. exact Hperm.
Defined.

(** C2.  For alice, signed in on a store that also holds a published
    document of bob, the dashboard sends a select that carries the order
    by [updated_at] and no filter at all, and the listing it shows holds
    bob's document next to her own. *)
Theorem dashboard_listing_is_not_scoped_to_owner :
  let '(r, st', w') :=
    DashboardPage.on_user (Some Samples.alice) DashboardPage.initial Samples.world_shared in
  r = Done tt /\
  calls w' = [Select [] (Some ("updated_at", false)) false] /\
  DashboardPage.documents st' = [Samples.report; Samples.plan_a] /\
  owned_by Samples.alice Samples.plan_a /\
  ~ owned_by Samples.alice Samples.report.
Proof.
  vm_compute. repeat split. discriminate.
Qed.

(* ===================================================================== *)
(** * Debounced autosave *)
(* ===================================================================== *)

(** The editor page reaches [Samples.memo_page] by fetching the memo. *)
Lemma memo_page_is_fetched :
  DocumentPage.fetchDocument "6" DocumentPage.initial Samples.world_memo =
  (Done tt, Samples.memo_page,
   log_call (Select [("id", Some "6")] None true) Samples.world_memo).
Proof. reflexivity. Qed.

(** The trigger rule does not hold without its guard: on the memo, whose
    content is [null], a new title settles after the quiet interval and no
    request is sent. *)
Lemma settled_title_without_content_is_not_saved : ~ every_settled_change_saves.
Proof.
  intros Hclaim.
  specialize (Hclaim reference_JSON Samples.alice Samples.memo 1000
                (EditorSession.input 0 (EditorSession.TypeTitle "Memo, final")
                                     (EditorSession.at_rest Samples.memo_page))
                Samples.world_memo eq_refl).
  vm_compute in Hclaim.
  apply Hclaim; [left; discriminate | reflexivity].
Qed.

Lemma last_cons {A} (l : list A) (a d : A) : last (a :: l) d = last l a.
Proof.
  revert a d. induction l as [| b rest IH]; intros a d; [reflexivity |].
  change (last (a :: b :: rest) d) with (last (b :: rest) d).
  rewrite (IH b d), (IH b a). reflexivity.
Qed.

Lemma Object_is_object (a v : JsValue) : is_object v = true -> Object_is a v = false.
Proof. destruct v; try discriminate; destruct a; reflexivity. Qed.

Lemma truthy_object (v : JsValue) : is_object v = true -> truthy v = true.
Proof. destruct v; try discriminate; reflexivity. Qed.

Lemma serialized_object `{JSON} (v : JsValue) :
  is_object v = true -> DocumentPage.serialized v = JSON_stringify v.
Proof. destruct v; try discriminate; reflexivity. Qed.

(** What one save sends, whatever the store answers. *)
Lemma saveDocument_calls
  `{JSON} (st : DocumentPage.State) (doc : Row) (u : Auth.User)
  (s0 : DocumentPage.State) (w : World) :
  DocumentPage.document st = Some doc ->
  calls (snd (DocumentPage.saveDocument st (Some u) s0 w)) =
    (calls w ++ [save_call st doc (clock w)])%list.
Proof.
  intros Hdoc. unfold_editor. rewrite Hdoc. unfold_handler. simpl.
  destruct (outage w); reflexivity.
Qed.

(** The page state a save leaves differs from the one it found in the
    saving flag only. *)
Lemma saveDocument_state
  `{JSON} (st : DocumentPage.State) (user : option Auth.User)
  (s0 : DocumentPage.State) (w : World) :
  let s1 := snd (fst (DocumentPage.saveDocument st user s0 w)) in
  DocumentPage.document s1 = DocumentPage.document s0 /\
  DocumentPage.title s1 = DocumentPage.title s0 /\
  DocumentPage.content s1 = DocumentPage.content s0 /\
  DocumentPage.status s1 = DocumentPage.status s0.
Proof.
  unfold_editor.
  destruct (DocumentPage.document st); [destruct user |]; try (simpl; tauto).
  unfold_handler. simpl. destruct (outage w); simpl; tauto.
Qed.

(** The content timer fires on a changed value: the value settles, and a
    save is sent exactly when the settled content is truthy; it carries
    the title, content and status the page holds at that instant. *)
Lemma settle_content_trigger
  `{JSON} (u : Auth.User) (doc : Row) (s : EditorSession.t) (w : World)
  (deadline : Timestamp) (v : JsValue) :
  DocumentPage.document (EditorSession.page s) = Some doc ->
  UseDebounce.timer (EditorSession.debouncedContent s) = Some (deadline, v) ->
  Object_is (UseDebounce.debouncedValue (EditorSession.debouncedContent s)) v = false ->
  let '(s', w') := EditorSession.settle_content (Some u) s w in
  EditorSession.debouncedContent s' = UseDebounce.mk v None /\
  EditorSession.debouncedTitle s' = EditorSession.debouncedTitle s /\
  DocumentPage.document (EditorSession.page s') = Some doc /\
  DocumentPage.title (EditorSession.page s') = DocumentPage.title (EditorSession.page s) /\
  DocumentPage.content (EditorSession.page s') = DocumentPage.content (EditorSession.page s) /\
  DocumentPage.status (EditorSession.page s') = DocumentPage.status (EditorSession.page s) /\
  calls w' =
    if truthy v
    then (calls w ++ [save_call (EditorSession.page s) doc deadline])%list
    else calls w.
Proof.
  intros Hdoc Htimer Hchanged.
  unfold EditorSession.settle_content. rewrite Htimer, Hchanged.
  unfold EditorSession.run_effect, EditorSession.autosave, UseDebounce.fire.
  simpl. rewrite Hdoc, Htimer. simpl. rewrite andb_true_r.
  destruct (truthy v).
  - pose proof (saveDocument_calls (EditorSession.page s) u (EditorSession.page s)
                  (with_clock deadline w) Hdoc) as Hcalls.
    pose proof (saveDocument_state (EditorSession.page s) (Some u) (EditorSession.page s)
                  (with_clock deadline w)) as Hstate.
    destruct (DocumentPage.saveDocument (EditorSession.page s) (Some u)
                (EditorSession.page s) (with_clock deadline w)) as [[r p] w'].
    simpl in *. destruct Hstate as (Hd & Ht & Hc & Hs).
    rewrite Hd, Ht, Hc, Hs. auto 10.
  - unfold ret. simpl. auto 10.
Qed.

(** The title timer fires on a changed value: the value settles, and a
    save is sent exactly when the settled content is truthy. *)
Lemma settle_title_trigger
  `{JSON} (u : Auth.User) (doc : Row) (s : EditorSession.t) (w : World)
  (deadline : Timestamp) (x : string) :
  DocumentPage.document (EditorSession.page s) = Some doc ->
  UseDebounce.timer (EditorSession.debouncedTitle s) = Some (deadline, x) ->
  UseDebounce.debouncedValue (EditorSession.debouncedTitle s) <> x ->
  let '(s', w') := EditorSession.settle_title (Some u) s w in
  EditorSession.debouncedTitle s' = UseDebounce.mk x None /\
  EditorSession.debouncedContent s' = EditorSession.debouncedContent s /\
  DocumentPage.document (EditorSession.page s') = Some doc /\
  DocumentPage.title (EditorSession.page s') = DocumentPage.title (EditorSession.page s) /\
  DocumentPage.content (EditorSession.page s') = DocumentPage.content (EditorSession.page s) /\
  DocumentPage.status (EditorSession.page s') = DocumentPage.status (EditorSession.page s) /\
  calls w' =
    if truthy (UseDebounce.debouncedValue (EditorSession.debouncedContent s))
    then (calls w ++ [save_call (EditorSession.page s) doc deadline])%list
    else calls w.
Proof.
  intros Hdoc Htimer Hchanged.
  unfold EditorSession.settle_title. rewrite Htimer.
  apply String.eqb_neq in Hchanged. rewrite Hchanged.
  unfold EditorSession.run_effect, EditorSession.autosave, UseDebounce.fire.
  simpl. rewrite Hdoc, Htimer. simpl. rewrite andb_true_r.
  destruct (truthy (UseDebounce.debouncedValue (EditorSession.debouncedContent s))).
  - pose proof (saveDocument_calls (EditorSession.page s) u (EditorSession.page s)
                  (with_clock deadline w) Hdoc) as Hcalls.
    pose proof (saveDocument_state (EditorSession.page s) (Some u) (EditorSession.page s)
                  (with_clock deadline w)) as Hstate.
    destruct (DocumentPage.saveDocument (EditorSession.page s) (Some u)
                (EditorSession.page s) (with_clock deadline w)) as [[r p] w'].
    simpl in *. destruct Hstate as (Hd & Ht & Hc & Hs).
    rewrite Hd, Ht, Hc, Hs. auto 10.
  - unfold ret. simpl. auto 10.
Qed.

(** A burst of content edits on top of a pending content timer: every
    edit falls within the quiet interval of the one before, so the timer
    is restarted each time, and once the interval has passed after the
    last edit a single save is sent, at that instant, with the last tree. *)
Lemma pending_burst_saves_once
  `{JSON} (u : Auth.User) (doc : Row) (horizon : Timestamp)
  (edits : list (Timestamp * JsValue)) :
  forall (prev : Timestamp) (v : JsValue) (s : EditorSession.t) (w : World),
    DocumentPage.document (EditorSession.page s) = Some doc ->
    DocumentPage.content (EditorSession.page s) = v ->
    is_object v = true ->
    UseDebounce.timer (EditorSession.debouncedContent s) =
      Some (prev + EditorSession.delay, v) ->
    UseDebounce.timer (EditorSession.debouncedTitle s) = None ->
    within_quiet_interval prev edits ->
    Forall (fun e => is_object (snd e) = true) edits ->
    fst (last edits (prev, v)) + EditorSession.delay <= horizon ->
    calls (snd (EditorSession.run (Some u) (typed edits) horizon s w)) =
      (calls w ++
       [save_call (DocumentPage.with_content (snd (last edits (prev, v)))
                                             (EditorSession.page s))
                  doc (fst (last edits (prev, v)) + EditorSession.delay)])%list.
Proof.
  induction edits as [| [t v'] rest IH];
    intros prev v s w Hdoc Hcontent Hobj Htimer Hquiet Hwithin Hobjs Hhorizon.
  - simpl in *. unfold EditorSession.advance, UseDebounce.due.
    rewrite Htimer, Hquiet.
    destruct (prev + EditorSession.delay <=? horizon) eqn:Hdue; [| lia].
    pose proof (settle_content_trigger u s w Hdoc Htimer
                  (Object_is_object _ v Hobj)) as Hfire.
    destruct (EditorSession.settle_content (Some u) s w) as [s' w'].
    destruct Hfire as (_ & _ & _ & _ & _ & _ & Hcalls).
    simpl. rewrite Hcalls, (truthy_object v Hobj).
    unfold save_call, DocumentPage.with_content. simpl. rewrite Hcontent.
    reflexivity.
  - simpl in Hwithin. destruct Hwithin as [Hnear Hwithin].
    inversion Hobjs as [| ? ? Hobj' Hobjs']; subst. simpl in Hobj'.
    rewrite last_cons in *.
    unfold typed. simpl. fold (typed rest).
    unfold EditorSession.advance at 1, UseDebounce.due.
    rewrite Htimer, Hquiet.
    destruct (prev + EditorSession.delay <=? t) eqn:Hdue; [lia |].
    unfold EditorSession.input.
    rewrite (Object_is_object _ v' Hobj').
    rewrite (IH t v'); simpl; auto.
Qed.

(** C4.  Content and title are debounced separately, each with a quiet
    interval of 1000 ms: an edit of one of them drops that stream's pending
    timer and starts a new one 1000 ms ahead, and leaves the other stream
    alone.  Hence a burst of content edits, each within the quiet interval
    of the one before, ends in exactly one save, sent 1000 ms after the
    last edit with the last tree; for edits at 0, 100, 300 and 950 ms that
    is one save at 1950 ms.  When a timer fires and the settled value
    changes, with a document loaded and a user signed in, a save is sent if
    the settled content is truthy, and no request is sent otherwise; the
    save carries the title, the content and the status the page holds at
    that instant. *)
Theorem debounced_autosave `{JSON} (u : Auth.User) (doc : Row) :
  EditorSession.delay = 1000 /\
  (forall now v s,
      Object_is (DocumentPage.content (EditorSession.page s)) v = false ->
      let s' := EditorSession.input now (EditorSession.TypeContent v) s in
      EditorSession.debouncedContent s' =
        UseDebounce.mk (UseDebounce.debouncedValue (EditorSession.debouncedContent s))
                       (Some (now + 1000, v)) /\
      EditorSession.debouncedTitle s' = EditorSession.debouncedTitle s) /\
  (forall now x s,
      DocumentPage.title (EditorSession.page s) <> x ->
      let s' := EditorSession.input now (EditorSession.TypeTitle x) s in
      EditorSession.debouncedTitle s' =
        UseDebounce.mk (UseDebounce.debouncedValue (EditorSession.debouncedTitle s))
                       (Some (now + 1000, x)) /\
      EditorSession.debouncedContent s' = EditorSession.debouncedContent s) /\
  (forall st w t0 v0 rest horizon,
      DocumentPage.document st = Some doc ->
      is_object v0 = true ->
      Forall (fun e => is_object (snd e) = true) rest ->
      within_quiet_interval t0 rest ->
      fst (last rest (t0, v0)) + 1000 <= horizon ->
      calls (snd (EditorSession.run (Some u) (typed ((t0, v0) :: rest)) horizon
                                    (EditorSession.at_rest st) w)) =
        (calls w ++
         [save_call (DocumentPage.with_content (snd (last rest (t0, v0))) st) doc
                    (fst (last rest (t0, v0)) + 1000)])%list) /\
  calls (snd (EditorSession.run (Some Samples.alice) Samples.burst 5000
                                (EditorSession.at_rest Samples.editing)
                                Samples.world_at_0)) =
    [Update (mkPatch (Some "Plan A") (Some (JSON_stringify (Samples.tree 4)))
                     (Some "draft") (Some 1950))
            [("id", Some "1")]] /\
  (forall s w deadline v,
      DocumentPage.document (EditorSession.page s) = Some doc ->
      UseDebounce.timer (EditorSession.debouncedContent s) = Some (deadline, v) ->
      Object_is (UseDebounce.debouncedValue (EditorSession.debouncedContent s)) v = false ->
      calls (snd (EditorSession.settle_content (Some u) s w)) =
        if truthy v
        then (calls w ++ [save_call (EditorSession.page s) doc deadline])%list
        else calls w) /\
  (forall s w deadline x,
      DocumentPage.document (EditorSession.page s) = Some doc ->
      UseDebounce.timer (EditorSession.debouncedTitle s) = Some (deadline, x) ->
      UseDebounce.debouncedValue (EditorSession.debouncedTitle s) <> x ->
      calls (snd (EditorSession.settle_title (Some u) s w)) =
        if truthy (UseDebounce.debouncedValue (EditorSession.debouncedContent s))
        then (calls w ++ [save_call (EditorSession.page s) doc deadline])%list
        else calls w).
Proof.
  split; [reflexivity |].
  split; [| split; [| split; [| split; [| split]]]].
  - intros now v s Hchanged. simpl. rewrite Hchanged. split; reflexivity.
  - intros now x s Hchanged. simpl.
    apply String.eqb_neq in Hchanged. rewrite Hchanged. split; reflexivity.
  - intros st w t0 v0 rest horizon Hdoc Hobj Hobjs Hquiet Hhorizon.
    unfold typed. simpl. fold (typed rest).
    rewrite (Object_is_object _ v0 Hobj).
    rewrite (@pending_burst_saves_once _ u doc horizon rest t0 v0);
      try assumption; try reflexivity.
  - reflexivity.
  - intros s w deadline v Hdoc Htimer Hchanged.
    pose proof (settle_content_trigger u s w Hdoc Htimer Hchanged) as Hfire.
    destruct (EditorSession.settle_content (Some u) s w) as [s' w'].
    simpl. apply Hfire.
  - intros s w deadline x Hdoc Htimer Hchanged.
    pose proof (settle_title_trigger u s w Hdoc Htimer Hchanged) as Hfire.
    destruct (EditorSession.settle_title (Some u) s w) as [s' w'].
    simpl. apply Hfire.
Qed.

Lemma debounced_autosave_witness :
  calls (snd (EditorSession.run (Some Samples.alice)
                (typed [(0, Samples.tree 1); (100, Samples.tree 2);
                        (300, Samples.tree 3); (950, Samples.tree 4)])
                2000 (EditorSession.at_rest Samples.editing) Samples.world_at_0)) =
    [save_call (DocumentPage.with_content (Samples.tree 4) Samples.editing)
               Samples.plan_a 1950].
Proof.
  pose proof (@debounced_autosave reference_JSON Samples.alice Samples.plan_a) as Hrule.
  destruct Hrule as (_ & _ & _ & Hburst & _).
  apply (Hburst Samples.editing Samples.world_at_0 0 (Samples.tree 1)
                [(100, Samples.tree 2); (300, Samples.tree 3); (950, Samples.tree 4)]
                2000 eq_refl eq_refl).
  - repeat constructor.
  - simpl. unfold EditorSession.delay. lia.
  - simpl. lia.
Defined.

(* ===================================================================== *)
(** * Loading a document *)
(* ===================================================================== *)

Ltac unfold_fetch :=
  unfold DocumentPage.on_user, ViewDocumentPage.on_mount, DashboardPage.on_user,
    DocumentPage.fetchDocument, ViewDocumentPage.fetchDocument,
    DashboardPage.fetchDocuments,
    DocumentPage.setIsLoading, DocumentPage.setDocument, DocumentPage.setTitle,
    DocumentPage.setContent, DocumentPage.setStatus,
    ViewDocumentPage.setIsLoading, ViewDocumentPage.setDocument,
    DashboardPage.setIsLoading, DashboardPage.setDocuments,
    JSON_parse_throwing in *.

(** A fetch that fails answers with the error: either the outage, or
    the error of [.single()] on a selection that is not one row. *)
Lemma failing_select_single {S : Type} (params_id : string) (e : Error) (s : S) (w : World) :
  fetch_fails w params_id e ->
  Supabase.select_single [("id", Some params_id)] s w =
    (Done (mkResponse None (Some e)), s,
     log_call (Select [("id", Some params_id)] None true) w).
Proof.
  intros [Hdown | (Hup & Hrows & ->)];
    unfold Supabase.select_single, Supabase.call; simpl.
  - rewrite Hdown. reflexivity.
  - rewrite Hup.
    destruct (filter (Supabase.selected [("id", Some params_id)]) (table w))
      as [| a [| b rest]]; try reflexivity.
    simpl in Hrows. contradiction.
Qed.

(** X1.  The editor page, fetching a document the store holds, loads it:
    the row is kept as [document], its title and status fill the fields,
    and the content is the parse of the stored text or, when the store
    hands over a structure, that structure as it is.  No toast is raised
    and no navigation is asked for; the editor is rendered on the content
    when it is truthy. *)
Theorem editor_fetch_loads_document
  `{JSON} (params_id : string) (d : Row) (v : JsValue)
  (st : DocumentPage.State) (w : World) :
  holds_document w params_id d ->
  decoded (DocumentData.content d) = Some v ->
  let '(r, st', w') := DocumentPage.fetchDocument params_id st w in
  r = Done tt /\
  st' = DocumentPage.mkState (Some d) (DocumentData.title d) v (DocumentData.status d)
                             false (DocumentPage.isSaving st) /\
  w' = log_call (Select [("id", Some params_id)] None true) w /\
  DocumentPage.render st' =
    DocumentPage.Page (DocumentData.title d) (DocumentData.status d)
                      (DocumentPage.isSaving st)
                      (if truthy v then Some v else None).
Proof.
  intros [Hup Hrow] Hdecoded.
  unfold_fetch. unfold_handler. simpl. rewrite Hup, Hrow. simpl.
  unfold decoded in Hdecoded.
  destruct (DocumentData.content d) eqn:Hcontent; simpl;
    try (injection Hdecoded as <-; repeat split; reflexivity).
  rewrite Hdecoded. simpl. repeat split; reflexivity.
Qed.

Lemma editor_fetch_loads_document_witness :
  let '(r, st', w') :=
    DocumentPage.fetchDocument "1" DocumentPage.initial Samples.world in
  st' = DocumentPage.mkState (Some Samples.plan_a) "Plan A" (JObj []) "draft" false false /\
  trace w' = [].
Proof.
  assert (Hhold : holds_document Samples.world "1" Samples.plan_a)
    by (split; reflexivity).
  pose proof (@editor_fetch_loads_document reference_JSON "1" Samples.plan_a (JObj [])
                DocumentPage.initial Samples.world Hhold eq_refl) as Hload.
  simpl in Hload. destruct Hload as (_ & Hstate & Hworld & _).
  simpl. split; [exact Hstate | reflexivity].
Defined.

(** X2.  When the fetch of the editor page fails, because the store is
    down or holds no single row of that id, the page logs the error,
    raises the toast "Failed to fetch document" and asks for the
    dashboard; the document, title, content and status in memory are left
    alone, the loading flag is cleared and the store is not written. *)
Theorem editor_fetch_failure_redirects
  `{JSON} (params_id : string) (e : Error) (st : DocumentPage.State) (w : World) :
  fetch_fails w params_id e ->
  let '(r, st', w') := DocumentPage.fetchDocument params_id st w in
  r = Done tt /\
  st' = DocumentPage.mkState (DocumentPage.document st) (DocumentPage.title st)
                             (DocumentPage.content st) (DocumentPage.status st)
                             false (DocumentPage.isSaving st) /\
  table w' = table w /\
  calls w' = (calls w ++ [Select [("id", Some params_id)] None true])%list /\
  trace w' =
    (trace w ++
     [ConsoleError "Error fetching document:" e;
      Toast "Error" "Failed to fetch document" destructive;
      RouterPush "/dashboard"])%list.
Proof.
  intros Hfails.
  unfold_fetch.
  unfold try_catch_finally, bind at 1 2, set_state.
  rewrite (failing_select_single _ Hfails). unfold_handler. simpl.
  repeat split. rewrite <- !app_assoc. reflexivity.
Qed.

Lemma editor_fetch_failure_redirects_witness :
  let '(r, st', w') :=
    DocumentPage.fetchDocument "404" DocumentPage.initial Samples.world in
  DocumentPage.document st' = None /\
  trace w' =
    [ConsoleError "Error fetching document:" (PostgrestError "PGRST116");
     Toast "Error" "Failed to fetch document" destructive;
     RouterPush "/dashboard"].
Proof.
  assert (Hfails : fetch_fails Samples.world "404" (PostgrestError "PGRST116")).
  { right. split; [reflexivity |]. split; [simpl; discriminate | reflexivity]. }
  pose proof (@editor_fetch_failure_redirects reference_JSON "404" _
                DocumentPage.initial Samples.world Hfails) as Hfail.
  simpl in Hfail. destruct Hfail as (_ & Hstate & _ & _ & Htrace).
  simpl. split; [reflexivity | exact Htrace].
Defined.

(** X3.  When the fetch of the view page fails, because the store is down
    or holds no single row of that id, the page logs the error, raises
    the toast "Failed to fetch document" and asks for ["/"]; the document
    in memory is left alone and the loading flag is cleared. *)
Theorem view_fetch_failure_redirects
  (params_id : string) (e : Error) (st : ViewDocumentPage.State) (w : World) :
  fetch_fails w params_id e ->
  let '(r, st', w') := ViewDocumentPage.fetchDocument params_id st w in
  r = Done tt /\
  st' = ViewDocumentPage.mkState (ViewDocumentPage.document st) false /\
  table w' = table w /\
  calls w' = (calls w ++ [Select [("id", Some params_id)] None true])%list /\
  trace w' =
    (trace w ++
     [ConsoleError "Error fetching document:" e;
      Toast "Error" "Failed to fetch document" destructive;
      RouterPush "/"])%list.
Proof.
  intros Hfails.
  unfold_fetch.
  unfold try_catch_finally, bind at 1 2, set_state.
  rewrite (failing_select_single _ Hfails). unfold_handler. simpl.
  repeat split. rewrite <- !app_assoc. reflexivity.
Qed.

Lemma view_fetch_failure_redirects_witness :
  let '(r, st', w') :=
    ViewDocumentPage.fetchDocument "1" ViewDocumentPage.initial Samples.world_down in
  ViewDocumentPage.document st' = None /\
  trace w' =
    [ConsoleError "Error fetching document:" (PostgrestError "503");
     Toast "Error" "Failed to fetch document" destructive;
     RouterPush "/"].
Proof.
  assert (Hfails : fetch_fails Samples.world_down "1" (PostgrestError "503"))
    by (left; reflexivity).
  pose proof (view_fetch_failure_redirects ViewDocumentPage.initial Hfails) as Hfail.
  simpl in Hfail. destruct Hfail as (_ & Hstate & _ & _ & Htrace).
  simpl. split; [reflexivity | exact Htrace].
Defined.

(** X4.  Whatever the store answers and whatever the content holds, the
    three fetch handlers complete without throwing and leave the loading
    flag cleared: no page is left on its spinner by a fetch. *)
Theorem fetch_handlers_clear_loading
  `{JSON} (params_id : string) (w : World)
  (editor : DocumentPage.State) (view : ViewDocumentPage.State)
  (dashboard : DashboardPage.State) :
  (fst (fst (DocumentPage.fetchDocument params_id editor w)) = Done tt /\
   DocumentPage.isLoading (state_after (DocumentPage.fetchDocument params_id) editor w)
     = false) /\
  (fst (fst (ViewDocumentPage.fetchDocument params_id view w)) = Done tt /\
   ViewDocumentPage.isLoading
     (state_after (ViewDocumentPage.fetchDocument params_id) view w) = false) /\
  (fst (fst (DashboardPage.fetchDocuments dashboard w)) = Done tt /\
   DashboardPage.isLoading (state_after DashboardPage.fetchDocuments dashboard w)
     = false).
Proof.
  unfold state_after. unfold_fetch. unfold_handler. simpl.
  destruct (outage w); simpl; [repeat split |].
  destruct (filter (Supabase.selected [("id", Some params_id)]) (table w))
    as [| d [| d' rest]]; simpl; try (repeat split; reflexivity).
  destruct (DocumentData.status d =? "published")%string; simpl;
    destruct (DocumentData.content d); simpl; try (repeat split; reflexivity);
    destruct (JSON_parse s); simpl; repeat split; reflexivity.
Qed.

(** X5.  When the listing request fails, the dashboard logs the error and
    raises the toast "Failed to fetch documents"; it asks for no
    navigation, keeps the listing, the query and the filter it had, and
    clears the loading flag. *)
Theorem dashboard_fetch_failure_keeps_listing
  (e : Error) (st : DashboardPage.State) (w : World) :
  outage w = Some e ->
  let '(r, st', w') := DashboardPage.fetchDocuments st w in
  r = Done tt /\
  st' = DashboardPage.mkState (DashboardPage.documents st)
                              (DashboardPage.searchQuery st)
                              (DashboardPage.statusFilter st) false /\
  table w' = table w /\
  trace w' =
    (trace w ++
     [ConsoleError "Error fetching documents:" e;
      Toast "Error" "Failed to fetch documents" destructive])%list.
Proof.
  intros Hdown. unfold_fetch. unfold_handler. simpl. rewrite Hdown. simpl.
  repeat split. rewrite <- app_assoc. reflexivity.
Qed.

Lemma dashboard_fetch_failure_keeps_listing_witness :
  let '(r, st', w') := DashboardPage.fetchDocuments Samples.dashboard Samples.world_down in
  DashboardPage.documents st' = [Samples.plan_a; Samples.plan_b; Samples.notes] /\
  trace w' =
    [ConsoleError "Error fetching documents:" (PostgrestError "503");
     Toast "Error" "Failed to fetch documents" destructive].
Proof.
  pose proof (@dashboard_fetch_failure_keeps_listing (PostgrestError "503")
                Samples.dashboard Samples.world_down eq_refl) as Hfail.
  simpl in Hfail. destruct Hfail as (_ & _ & _ & Htrace).
  simpl. split; [reflexivity | exact Htrace].
Defined.

(** X6.  The view page, fetching a published document the store holds,
    renders its title over a read-only editor whose content is the parse
    of the stored text or, when the store hands over a structure, that
    structure as it is. *)
Theorem view_page_renders_decoded_content
  `{JSON} (params_id : string) (d : Row) (v : JsValue)
  (st : ViewDocumentPage.State) (w : World) :
  holds_document w params_id d ->
  DocumentData.status d = "published" ->
  decoded (DocumentData.content d) = Some v ->
  ViewDocumentPage.render
    (state_after (ViewDocumentPage.fetchDocument params_id) st w) =
    Done (ViewDocumentPage.ReadOnly (DocumentData.title d) v).
Proof.
  intros [Hup Hrow] Hstatus Hdecoded.
  unfold state_after. unfold_fetch. unfold_handler. simpl.
  rewrite Hup, Hrow. simpl. rewrite Hstatus. simpl.
  unfold ViewDocumentPage.render, ViewDocumentPage.show. simpl.
  unfold decoded in Hdecoded.
  destruct (DocumentData.content d); try (injection Hdecoded as <-; reflexivity).
  rewrite Hdecoded. reflexivity.
Qed.

Lemma view_page_renders_decoded_content_witness :
  ViewDocumentPage.render
    (state_after (ViewDocumentPage.fetchDocument "2") ViewDocumentPage.initial
                 Samples.world) =
    Done (ViewDocumentPage.ReadOnly "Plan B" (JObj [])).
Proof.
  assert (Hhold : holds_document Samples.world "2" Samples.plan_b)
    by (split; reflexivity).
  exact (@view_page_renders_decoded_content reference_JSON "2" Samples.plan_b (JObj [])
           ViewDocumentPage.initial Samples.world Hhold eq_refl eq_refl).
Defined.

(** X7.  The sign-in page sends a user to the dashboard once the
    session has loaded, and nobody before that.  Without a signed-in user
    it asks for no navigation, and the dashboard and the editor page send
    no request and stay as they were, on their spinner when freshly
    mounted.  The view page does not look at the user: it sends its fetch
    on mount. *)
Theorem signed_out_pages_do_not_fetch
  `{JSON} `{JSString} (params_id : string) (loading : bool) (u : Auth.User) (w : World)
  (editor : DocumentPage.State) (dashboard : DashboardPage.State)
  (view : ViewDocumentPage.State) :
  LoginPage.on_auth (Some u) false tt w =
    (Done tt, tt, log_effect (RouterPush "/dashboard") w) /\
  LoginPage.on_auth (Some u) true tt w = (Done tt, tt, w) /\
  LoginPage.on_auth None loading tt w = (Done tt, tt, w) /\
  DashboardPage.on_user None dashboard w = (Done tt, dashboard, w) /\
  DocumentPage.on_user None params_id editor w = (Done tt, editor, w) /\
  DashboardPage.body DashboardPage.initial = DashboardPage.Loading /\
  DocumentPage.render DocumentPage.initial = DocumentPage.Spinner /\
  calls (world_after (ViewDocumentPage.on_mount params_id) view w) =
    (calls w ++ [Select [("id", Some params_id)] None true])%list.
Proof.
  repeat split.
  unfold world_after. unfold_fetch. unfold_handler. simpl.
  destruct (outage w); simpl; [reflexivity |].
  destruct (filter (Supabase.selected [("id", Some params_id)]) (table w))
    as [| d [| d' rest]]; simpl; try reflexivity.
  destruct (DocumentData.status d =? "published")%string; reflexivity.
Qed.

(* ===================================================================== *)
(** * Creating, again *)
(* ===================================================================== *)

(** X8.  When the insert fails, creating a document logs the error and
    raises the toast "Failed to create new document"; the page asks for
    no navigation, its state is untouched and no row is added. *)
Theorem failed_create_stays_on_dashboard
  `{JSON} (user : option Auth.User) (e : Error) (st : DashboardPage.State) (w : World) :
  outage w = Some e ->
  let '(r, st', w') := DashboardPage.createNewDocument user st w in
  r = Done tt /\
  st' = st /\
  table w' = table w /\
  trace w' =
    (trace w ++
     [ConsoleError "Error creating document:" e;
      Toast "Error" "Failed to create new document" destructive])%list.
Proof.
  intros Hdown. unfold DashboardPage.createNewDocument. unfold_handler. simpl.
  rewrite Hdown. simpl. repeat split. rewrite <- app_assoc. reflexivity.
Qed.

Lemma failed_create_stays_on_dashboard_witness :
  let '(r, st', w') :=
    DashboardPage.createNewDocument (Some Samples.alice) Samples.dashboard
                                    Samples.world_down in
  table w' = [Samples.plan_a; Samples.plan_b; Samples.notes] /\
  trace w' =
    [ConsoleError "Error creating document:" (PostgrestError "503");
     Toast "Error" "Failed to create new document" destructive].
Proof.
  pose proof (@failed_create_stays_on_dashboard reference_JSON (Some Samples.alice)
                (PostgrestError "503") Samples.dashboard Samples.world_down eq_refl)
    as Hfail.
  simpl in Hfail. destruct Hfail as (_ & _ & Htable & Htrace).
  simpl. split; [exact Htable | exact Htrace].
Defined.

(** X9.  Creating a document does not wait for a user: with nobody signed
    in, the insert is sent all the same, carrying no [user_id], and when
    the store accepts it the new row has no owner and the page navigates
    to its editor. *)
Theorem create_without_user_inserts_ownerless_row
  `{JSON} (st : DashboardPage.State) (w : World) (new_id : string) (ids : list string) :
  outage w = None ->
  id_supply w = new_id :: ids ->
  let '(r, st', w') := DashboardPage.createNewDocument None st w in
  calls w' =
    (calls w ++
     [Insert [mkNewRow "Untitled Document"
                       (JSON_stringify DashboardPage.empty_document) None "draft"]])%list /\
  table w' =
    (table w ++
     [DocumentData.mk new_id "Untitled Document"
                      (JStr (JSON_stringify DashboardPage.empty_document))
                      "draft" None (clock w) (clock w)])%list /\
  (forall u : Auth.User,
      Forall (fun row => ~ owned_by u row) (skipn (length (table w)) (table w'))) /\
  trace w' = (trace w ++ [RouterPush ("/document/" ++ new_id)])%list.
Proof.
  intros Hup Hids. unfold DashboardPage.createNewDocument. unfold_handler. simpl.
  rewrite Hup, Hids. simpl. repeat split.
  intros u. rewrite skipn_app, skipn_all, Nat.sub_diag. simpl.
  constructor; [| constructor]. unfold owned_by. simpl. discriminate.
Qed.

Lemma create_without_user_inserts_ownerless_row_witness :
  let '(r, st', w') :=
    DashboardPage.createNewDocument None Samples.dashboard Samples.world in
  map DocumentData.user_id (table w') = [Some "alice"; Some "alice"; Some "alice"; None] /\
  trace w' = [RouterPush "/document/4"].
Proof.
  pose proof (@create_without_user_inserts_ownerless_row reference_JSON Samples.dashboard
                Samples.world "4" ["5"] eq_refl eq_refl) as Hcreate.
  simpl in Hcreate. destruct Hcreate as (_ & Htable & _ & Htrace).
  simpl. split; [reflexivity | exact Htrace].
Defined.

(* ===================================================================== *)
(** * Searching the listing *)
(* ===================================================================== *)

Lemma prefix_occurs (needle hay : string) :
  String.prefix needle hay = true <-> exists post, hay = (needle ++ post)%string.
Proof.
  revert hay. induction needle as [| c needle IH]; intros hay; simpl.
  - split; [intros _; exists hay; reflexivity | intros _; destruct hay; reflexivity].
  - destruct hay as [| h hay]; simpl.
    + split; [discriminate | intros [post Hpost]; discriminate].
    + destruct (Ascii.ascii_dec c h) as [-> | Hne].
      * rewrite IH. split; intros [post Hpost]; exists post; congruence.
      * split; [discriminate |]. intros [post Hpost]. congruence.
Qed.

Lemma includes_unfold (hay needle : string) :
  includes hay needle =
    if String.prefix needle hay then true
    else match hay with
         | EmptyString => false
         | String _ rest => includes rest needle
         end.
Proof. destruct hay; reflexivity. Qed.

Lemma includes_occurs (hay needle : string) :
  includes hay needle = true <->
  exists pre post, hay = (pre ++ needle ++ post)%string.
Proof.
  induction hay as [| h hay IH]; rewrite includes_unfold.
  - destruct (String.prefix needle EmptyString) eqn:Hprefix.
    + apply prefix_occurs in Hprefix as [post Hpost].
      split; [intros _; exists EmptyString, post; exact Hpost | reflexivity].
    + split; [discriminate |]. intros (pre & post & Hocc).
      destruct pre; simpl in Hocc; [| discriminate].
      assert (Hyes : String.prefix needle EmptyString = true)
        by (apply prefix_occurs; exists post; exact Hocc).
      congruence.
  - destruct (String.prefix needle (String h hay)) eqn:Hprefix.
    + apply prefix_occurs in Hprefix as [post Hpost].
      split; [intros _; exists EmptyString, post; exact Hpost | reflexivity].
    + rewrite IH. split.
      * intros (pre & post & Hocc). exists (String h pre), post.
        simpl. rewrite Hocc. reflexivity.
      * intros (pre & post & Hocc). destruct pre as [| p pre]; simpl in Hocc.
        -- assert (Hyes : String.prefix needle (String h hay) = true)
             by (apply prefix_occurs; exists post; exact Hocc).
           congruence.
        -- injection Hocc as _ Hocc. exists pre, post. exact Hocc.
Qed.

Lemma ascii_toLowerCase_idempotent (s : string) :
  ascii_toLowerCase (ascii_toLowerCase s) = ascii_toLowerCase s.
Proof.
  induction s as [| c s IH]; simpl; [reflexivity |]. rewrite IH. f_equal.
  unfold lower_char.
  destruct ((65 <=? nat_of_ascii c) && (nat_of_ascii c <=? 90))%nat eqn:Hupper;
    [| rewrite Hupper; reflexivity].
  apply andb_true_iff in Hupper as [Hlo Hhi].
  apply Nat.leb_le in Hlo, Hhi.
  rewrite nat_ascii_embedding by lia.
  replace ((65 <=? nat_of_ascii c + 32) && (nat_of_ascii c + 32 <=? 90))%nat with false;
    [reflexivity |].
  symmetry. apply andb_false_iff. right. apply Nat.leb_gt. lia.
Qed.

(** X10.  On ASCII text the dashboard search is a substring search that
    ignores case: with an ASCII query, a document with an ASCII title is
    shown exactly when it is in the listing, the query with its letters
    lower-cased occurs somewhere inside the title with its letters
    lower-cased, and its status passes the filter.  Hence two ASCII
    queries that differ in the case of their letters only find the same
    documents, and two documents whose ASCII titles differ in case only
    match the same queries; the query ["PLAN"] finds Plan A and Plan B. *)
Theorem search_is_substring_ignoring_case `{JSString} (st : DashboardPage.State) :
  is_ascii (DashboardPage.searchQuery st) = true ->
  (forall doc : Row,
      is_ascii (DocumentData.title doc) = true ->
      (In doc (DashboardPage.filteredDocuments st) <->
       In doc (DashboardPage.documents st) /\
       (exists pre post,
           ascii_toLowerCase (DocumentData.title doc) =
             (pre ++ ascii_toLowerCase (DashboardPage.searchQuery st) ++ post)%string) /\
       (DashboardPage.statusFilter st = "all" \/
        DocumentData.status doc = DashboardPage.statusFilter st))) /\
  (forall q : string,
      is_ascii q = true ->
      ascii_toLowerCase q = ascii_toLowerCase (DashboardPage.searchQuery st) ->
      DashboardPage.filteredDocuments (searching q (DashboardPage.statusFilter st) st) =
        DashboardPage.filteredDocuments st) /\
  (forall doc doc' : Row,
      is_ascii (DocumentData.title doc) = true ->
      is_ascii (DocumentData.title doc') = true ->
      ascii_toLowerCase (DocumentData.title doc) =
        ascii_toLowerCase (DocumentData.title doc') ->
      DashboardPage.matchesSearch st doc = DashboardPage.matchesSearch st doc') /\
  DashboardPage.filteredDocuments (searching "PLAN" "all" Samples.dashboard) =
    [Samples.plan_a; Samples.plan_b].
Proof.
  intros Hquery. split; [| split; [| split]].
  - intros doc Htitle. unfold DashboardPage.filteredDocuments.
    rewrite filter_In, andb_true_iff.
    unfold DashboardPage.matchesSearch, DashboardPage.matchesStatus.
    rewrite (toLowerCase_ascii _ Htitle), (toLowerCase_ascii _ Hquery).
    rewrite includes_occurs, orb_true_iff, !String.eqb_eq. tauto.
  - intros q Hq Hsame.
    unfold DashboardPage.filteredDocuments, searching,
      DashboardPage.matchesSearch, DashboardPage.matchesStatus. simpl.
    rewrite (toLowerCase_ascii _ Hq), (toLowerCase_ascii _ Hquery), Hsame.
    reflexivity.
  - intros doc doc' Htitle Htitle' Hsame. unfold DashboardPage.matchesSearch.
    rewrite (toLowerCase_ascii _ Htitle), (toLowerCase_ascii _ Htitle'), Hsame.
    reflexivity.
  - unfold DashboardPage.filteredDocuments, DashboardPage.matchesSearch. simpl.
    rewrite !toLowerCase_ascii by reflexivity. reflexivity.
Qed.

Lemma search_is_substring_ignoring_case_witness :
  @DashboardPage.filteredDocuments ascii_JSString
    (searching "plan a" "draft" Samples.dashboard) =
  @DashboardPage.filteredDocuments ascii_JSString
    (searching "PLAN A" "draft" Samples.dashboard).
Proof.
  assert (Hquery : is_ascii (DashboardPage.searchQuery
                               (searching "PLAN A" "draft" Samples.dashboard)) = true)
    by reflexivity.
  destruct (@search_is_substring_ignoring_case ascii_JSString
              (searching "PLAN A" "draft" Samples.dashboard) Hquery)
    as (_ & Hcase & _).
  exact (Hcase "plan a" eq_refl eq_refl).
Defined.

(** X11.  With an empty query every title matches: the dashboard then
    shows the listing filtered by status alone, and the whole listing,
    in its order, under the filter ["all"]. *)
Theorem empty_search_shows_whole_listing
  `{JSString} (f : string) (st : DashboardPage.State) :
  DashboardPage.filteredDocuments (searching "" f st) =
    filter (fun doc => (f =? "all")%string || (DocumentData.status doc =? f)%string)
           (DashboardPage.documents st) /\
  DashboardPage.filteredDocuments (searching "" "all" st) = DashboardPage.documents st.
Proof.
  assert (Hany : forall s, includes s (toLowerCase "") = true).
  { intros s. rewrite toLowerCase_ascii by reflexivity. destruct s; reflexivity. }
  unfold DashboardPage.filteredDocuments, searching,
    DashboardPage.matchesSearch, DashboardPage.matchesStatus. simpl.
  split.
  - apply filter_ext. intros doc. rewrite Hany. reflexivity.
  - induction (DashboardPage.documents st) as [| doc rest IH]; simpl; [reflexivity |].
    rewrite Hany. simpl. f_equal. exact IH.
Qed.

(** X12.  On a listing whose documents are all drafts or published, the
    drafts and the published documents a query finds are, together, as
    many as the documents it finds under the filter ["all"], and no
    document is found under both. *)
Theorem status_filters_partition_search
  `{JSString} (q : string) (st : DashboardPage.State) :
  statuses_known st ->
  (length (DashboardPage.filteredDocuments (searching q "all" st)) =
   length (DashboardPage.filteredDocuments (searching q "draft" st)) +
   length (DashboardPage.filteredDocuments (searching q "published" st)))%nat /\
  (forall doc,
      In doc (DashboardPage.filteredDocuments (searching q "draft" st)) ->
      ~ In doc (DashboardPage.filteredDocuments (searching q "published" st))).
Proof.
  intros Hknown. split.
  - unfold statuses_known in Hknown.
    unfold DashboardPage.filteredDocuments, searching,
      DashboardPage.matchesSearch, DashboardPage.matchesStatus. simpl.
    induction Hknown as [| doc rest Hdoc Hrest IH]; simpl; [reflexivity |].
    destruct (includes (toLowerCase (DocumentData.title doc)) (toLowerCase q));
      simpl; [| exact IH].
    destruct Hdoc as [-> | ->]; simpl; rewrite IH; lia.
  - intros doc Hdraft Hpublished.
    unfold DashboardPage.filteredDocuments in *.
    apply filter_In in Hdraft as [_ Hdraft].
    apply filter_In in Hpublished as [_ Hpublished].
    apply andb_true_iff in Hdraft as [_ Hdraft].
    apply andb_true_iff in Hpublished as [_ Hpublished].
    unfold DashboardPage.matchesStatus, searching in *. simpl in *.
    apply String.eqb_eq in Hdraft, Hpublished. congruence.
Qed.

Lemma status_filters_partition_search_witness :
  (length (@DashboardPage.filteredDocuments ascii_JSString
             (searching "plan" "all" Samples.dashboard)) =
   length (@DashboardPage.filteredDocuments ascii_JSString
             (searching "plan" "draft" Samples.dashboard)) +
   length (@DashboardPage.filteredDocuments ascii_JSString
             (searching "plan" "published" Samples.dashboard)))%nat.
Proof.
  assert (Hknown : statuses_known Samples.dashboard).
  { unfold statuses_known. simpl.
    repeat (constructor; [simpl; auto |]). constructor. }
  destruct (@status_filters_partition_search ascii_JSString "plan" _ Hknown)
    as [Hcount _].
  exact Hcount.
Defined.

(* ===================================================================== *)
(** * Deleting, again *)
(* ===================================================================== *)

Lemma filter_swap {A} (p q : A -> bool) (l : list A) :
  filter p (filter q l) = filter q (filter p l).
Proof.
  induction l as [| x rest IH]; simpl; [reflexivity |].
  destruct (p x) eqn:Hp, (q x) eqn:Hq; simpl; rewrite ?Hp, ?Hq, IH; reflexivity.
Qed.

Lemma filter_keeps_all {A} (p : A -> bool) (l : list A) :
  (forall x, In x l -> p x = true) -> filter p l = l.
Proof.
  induction l as [| x rest IH]; intros Hall; simpl; [reflexivity |].
  rewrite (Hall x) by (left; reflexivity).
  f_equal. apply IH. intros y Hy. apply Hall. right. exact Hy.
Qed.

(** X13.  A successful delete puts on the page the listing of the render
    it was started from, without the documents of that id, and leaves
    the query and the filter as they are now; the page then shows that
    listing searched with the current query and filter.  When the listing
    has not changed since that render, this is what the page showed
    before without the documents of that id, so that searching and
    deleting can be done in either order; deleting an id the listing does
    not hold then changes nothing on the page and still raises the toast
    "Document deleted successfully". *)
Theorem delete_then_search
  `{JSString} (st live : DashboardPage.State) (id : string) (w : World) :
  outage w = None ->
  let '(r, st', w') := DashboardPage.deleteDocument st id live w in
  r = Done tt /\
  st' = DashboardPage.mkState
          (filter (fun doc => negb (DocumentData.id doc =? id)%string)
                  (DashboardPage.documents st))
          (DashboardPage.searchQuery live) (DashboardPage.statusFilter live)
          (DashboardPage.isLoading live) /\
  DashboardPage.filteredDocuments st' =
    filter (fun doc => negb (DocumentData.id doc =? id)%string)
           (DashboardPage.filteredDocuments
              (searching (DashboardPage.searchQuery live)
                         (DashboardPage.statusFilter live) st)) /\
  (DashboardPage.documents live = DashboardPage.documents st ->
   DashboardPage.filteredDocuments st' =
     filter (fun doc => negb (DocumentData.id doc =? id)%string)
            (DashboardPage.filteredDocuments live) /\
   (~ In id (map DocumentData.id (DashboardPage.documents st)) -> st' = live)) /\
  trace w' =
    (trace w ++ [Toast "Success" "Document deleted successfully" default_variant])%list.
Proof.
  intros Hup.
  unfold DashboardPage.deleteDocument, DashboardPage.setDocuments.
  unfold_handler. simpl. rewrite Hup. simpl.
  split; [reflexivity |]. split; [reflexivity |].
  assert (Hswap : forall listing,
             filter (fun doc => DashboardPage.matchesSearch live doc &&
                                DashboardPage.matchesStatus live doc)
                    (filter (fun doc => negb (DocumentData.id doc =? id)%string) listing) =
             filter (fun doc => negb (DocumentData.id doc =? id)%string)
                    (filter (fun doc => DashboardPage.matchesSearch live doc &&
                                        DashboardPage.matchesStatus live doc) listing))
    by (intros listing; apply filter_swap).
  split; [| split; [| reflexivity]].
  - unfold DashboardPage.filteredDocuments, searching. simpl. apply Hswap.
  - intros Hsame. split.
    + unfold DashboardPage.filteredDocuments. simpl. rewrite Hsame. apply Hswap.
    + intros Habsent. rewrite filter_keeps_all.
      * rewrite <- Hsame. destruct live; reflexivity.
      * intros doc Hdoc. apply negb_string_eqb_true. intros Hid.
        apply Habsent. rewrite <- Hid. apply in_map. exact Hdoc.
Qed.

Lemma delete_then_search_witness :
  let '(r, st', w') :=
    DashboardPage.deleteDocument Samples.dashboard "1" Samples.dashboard Samples.world in
  @DashboardPage.filteredDocuments ascii_JSString st' = [] /\
  DashboardPage.searchQuery st' = "Plan".
Proof.
  pose proof (@delete_then_search ascii_JSString Samples.dashboard Samples.dashboard "1"
                Samples.world eq_refl) as Hdelete.
  simpl in Hdelete. destruct Hdelete as (_ & Hstate & Hshown & _).
  simpl. split; [exact Hshown | reflexivity].
Defined.

(* ===================================================================== *)
(** * One handler after another *)
(* ===================================================================== *)

(** What the view page does with a document the store holds. *)
Lemma view_fetch_found
  (params_id : string) (d : Row) (st : ViewDocumentPage.State) (w : World) :
  holds_document w params_id d ->
  ViewDocumentPage.fetchDocument params_id st w =
    let w1 := log_call (Select [("id", Some params_id)] None true) w in
    if (DocumentData.status d =? "published")%string
    then (Done tt, ViewDocumentPage.mkState (Some d) false, w1)
    else (Done tt, ViewDocumentPage.mkState (ViewDocumentPage.document st) false,
          log_effect (RouterPush "/")
            (log_effect (Toast "Access denied"
                               "This document is not published for viewing" destructive)
                        w1)).
Proof.
  intros [Hup Hrow]. unfold_fetch. unfold_handler. simpl. rewrite Hup, Hrow. simpl.
  destruct (DocumentData.status d =? "published")%string; reflexivity.
Qed.

(** What the editor page does with a document the store holds and whose
    content decodes. *)
Lemma editor_fetch_found
  `{JSON} (params_id : string) (d : Row) (v : JsValue)
  (st : DocumentPage.State) (w : World) :
  holds_document w params_id d ->
  decoded (DocumentData.content d) = Some v ->
  DocumentPage.fetchDocument params_id st w =
    (Done tt,
     DocumentPage.mkState (Some d) (DocumentData.title d) v (DocumentData.status d)
                          false (DocumentPage.isSaving st),
     log_call (Select [("id", Some params_id)] None true) w).
Proof.
  intros [Hup Hrow] Hdecoded.
  unfold_fetch. unfold_handler. simpl. rewrite Hup, Hrow. simpl.
  unfold decoded in Hdecoded.
  destruct (DocumentData.content d) eqn:Hcontent; simpl;
    try (injection Hdecoded as <-; reflexivity).
  rewrite Hdecoded. reflexivity.
Qed.

(** An update of the rows of one id, seen through a selection by that
    id: the selected rows are the old ones, patched. *)
Lemma selection_after_update (i : string) (p : Patch) (l : list Row) :
  filter (Supabase.selected [("id", Some i)])
         (map (fun r => if Supabase.selected [("id", Some i)] r
                        then Supabase.apply_patch p r else r) l) =
  map (Supabase.apply_patch p) (filter (Supabase.selected [("id", Some i)]) l).
Proof.
  induction l as [| r rest IH]; simpl; [reflexivity |].
  destruct (Supabase.selected [("id", Some i)] r) eqn:Hsel.
  - assert (Hstill : Supabase.selected [("id", Some i)] (Supabase.apply_patch p r) = true).
    { rewrite selected_by_id in *. exact Hsel. }
    simpl. rewrite Hstill. simpl. f_equal. exact IH.
  - simpl. rewrite Hsel. exact IH.
Qed.

Lemma selection_of_absent_id (i : string) (l : list Row) :
  ~ In i (map DocumentData.id l) ->
  filter (Supabase.selected [("id", Some i)]) l = [].
Proof.
  induction l as [| r rest IH]; intros Habsent; simpl; [reflexivity |].
  rewrite selected_by_id.
  destruct (DocumentData.id r =? i)%string eqn:Hid.
  - apply String.eqb_eq in Hid. exfalso. apply Habsent. left. exact Hid.
  - apply IH. intros Hin. apply Habsent. right. exact Hin.
Qed.

(** X14.  A status change that reaches the store decides what the share
    link does next: after the change, a view page opening the document
    gets the stored row with the new status and the new [updated_at], its
    title and content untouched; it keeps and shows it when the new
    status is ["published"], and otherwise answers with the access-denied
    toast and a navigation to ["/"]. *)
Theorem status_change_opens_and_closes_the_view
  `{JSON} (st : DocumentPage.State) (d stored : Row) (newStatus : string)
  (view : ViewDocumentPage.State) (w : World) :
  DocumentPage.document st = Some d ->
  holds_document w (DocumentData.id d) stored ->
  let w1 := world_after (DocumentPage.handleStatusChange st newStatus) st w in
  let updated :=
    DocumentData.mk (DocumentData.id stored) (DocumentData.title stored)
                    (DocumentData.content stored) newStatus
                    (DocumentData.user_id stored) (DocumentData.created_at stored)
                    (clock w) in
  let '(r, view', w2) := ViewDocumentPage.fetchDocument (DocumentData.id d) view w1 in
  holds_document w1 (DocumentData.id d) updated /\
  (newStatus = "published" ->
   view' = ViewDocumentPage.mkState (Some updated) false /\ trace w2 = trace w1) /\
  (newStatus <> "published" ->
   view' = ViewDocumentPage.mkState (ViewDocumentPage.document view) false /\
   trace w2 =
     (trace w1 ++
      [Toast "Access denied" "This document is not published for viewing" destructive;
       RouterPush "/"])%list).
Proof.
  intros Hdoc [Hup Hrow] w1 updated.
  assert (Hheld : holds_document w1 (DocumentData.id d) updated).
  { subst w1 updated. unfold world_after. unfold_editor. rewrite Hdoc.
    unfold_handler. simpl. rewrite Hup. simpl.
    unfold holds_document, log_effect, with_table, log_call. simpl.
    split; [exact Hup |].
    rewrite selection_after_update, Hrow. reflexivity. }
  rewrite (view_fetch_found view Hheld).
  subst updated. cbn [DocumentData.status].
  destruct (newStatus =? "published")%string eqn:Hstatus; cbv zeta;
    (split; [exact Hheld |]); split.
  - intros _. split; reflexivity.
  - intros Hdraft. apply String.eqb_eq in Hstatus. contradiction.
  - intros Hpublished. apply String.eqb_neq in Hstatus. contradiction.
  - intros _. split; [reflexivity |]. simpl. rewrite <- app_assoc. reflexivity.
Qed.

Lemma status_change_opens_and_closes_the_view_witness :
  let w1 :=
    world_after (DocumentPage.handleStatusChange Samples.editing "published")
                Samples.editing Samples.world in
  let '(r, view', w2) :=
    ViewDocumentPage.fetchDocument "1" ViewDocumentPage.initial w1 in
  view' =
    ViewDocumentPage.mkState
      (Some (DocumentData.mk "1" "Plan A" (JStr "{}") "published" (Some "alice") 10 1000))
      false.
Proof.
  assert (Hhold : holds_document Samples.world "1" Samples.plan_a)
    by (split; reflexivity).
  pose proof (@status_change_opens_and_closes_the_view reference_JSON Samples.editing
                Samples.plan_a Samples.plan_a "published" ViewDocumentPage.initial
                Samples.world eq_refl Hhold) as Hflow.
  vm_compute in Hflow. destruct Hflow as (_ & Hopen & _).
  vm_compute. exact (proj1 (Hopen eq_refl)).
Defined.

(** X15.  A document just created opens in the editor as it was
    created: when the store assigns an id no row has yet and the
    serialization of the empty document parses back to it, the editor
    page fetching that id loads the title "Untitled Document", the empty
    document tree, the status "draft" and the creator as owner, with no
    toast, and renders the editor on that tree. *)
Theorem created_document_opens_in_editor
  `{JSON} (u : Auth.User) (dashboard : DashboardPage.State) (w : World)
  (new_id : string) (ids : list string) :
  outage w = None ->
  id_supply w = new_id :: ids ->
  ~ In new_id (map DocumentData.id (table w)) ->
  JSON_parse (JSON_stringify DashboardPage.empty_document) =
    Some DashboardPage.empty_document ->
  let w1 := world_after (DashboardPage.createNewDocument (Some u)) dashboard w in
  let created :=
    DocumentData.mk new_id "Untitled Document"
                    (JStr (JSON_stringify DashboardPage.empty_document))
                    "draft" (Some (Auth.id u)) (clock w) (clock w) in
  let '(r, st', w2) := DocumentPage.fetchDocument new_id DocumentPage.initial w1 in
  st' = DocumentPage.mkState (Some created) "Untitled Document"
                             DashboardPage.empty_document "draft" false false /\
  trace w2 = trace w1 /\
  DocumentPage.render st' =
    DocumentPage.Page "Untitled Document" "draft" false
                      (Some DashboardPage.empty_document).
Proof.
  intros Hup Hids Hfresh Hparse w1 created.
  assert (Hheld : holds_document w1 new_id created).
  { subst w1 created. unfold world_after, DashboardPage.createNewDocument.
    unfold_handler. simpl. rewrite Hup, Hids. simpl.
    unfold holds_document, log_effect, with_id_supply, with_table, log_call. simpl.
    split; [exact Hup |].
    rewrite filter_app, (@selection_of_absent_id new_id (table w) Hfresh). simpl.
    rewrite selected_by_id. simpl. rewrite String.eqb_refl. reflexivity. }
  rewrite (editor_fetch_found (v := DashboardPage.empty_document)
             DocumentPage.initial Hheld) by exact Hparse.
  repeat split.
Qed.

Lemma created_document_opens_in_editor_witness :
  let w1 :=
    world_after (DashboardPage.createNewDocument (Some Samples.alice))
                Samples.dashboard Samples.world in
  let '(r, st', w2) := DocumentPage.fetchDocument "4" DocumentPage.initial w1 in
  st' =
    DocumentPage.mkState
      (Some (DocumentData.mk "4" "Untitled Document" (JStr empty_document_text)
                             "draft" (Some "alice") 1000 1000))
      "Untitled Document" DashboardPage.empty_document "draft" false false.
Proof.
  assert (Hfresh : ~ In "4" (map DocumentData.id (table Samples.world))).
  { simpl. intros [Hin | [Hin | [Hin | []]]]; discriminate. }
  pose proof (@created_document_opens_in_editor reference_JSON Samples.alice
                Samples.dashboard Samples.world "4" ["5"] eq_refl eq_refl Hfresh eq_refl)
    as Hopen.
  exact (proj1 Hopen).
Defined.

(** X16.  What a save writes is what the editor loads back: after a
    successful save of a page whose content is a tree that survives
    serialization, the editor page fetching the same id gets the saved
    title, content and status, without any toast. *)
Theorem saved_document_reloads
  `{JSON} (st : DocumentPage.State) (d stored : Row) (u : Auth.User) (w : World) :
  DocumentPage.document st = Some d ->
  holds_document w (DocumentData.id d) stored ->
  is_object (DocumentPage.content st) = true ->
  JSON_parse (JSON_stringify (DocumentPage.content st)) = Some (DocumentPage.content st) ->
  let w1 := world_after (DocumentPage.saveDocument st (Some u)) st w in
  let '(r, st', w2) :=
    DocumentPage.fetchDocument (DocumentData.id d) DocumentPage.initial w1 in
  DocumentPage.title st' = DocumentPage.title st /\
  DocumentPage.content st' = DocumentPage.content st /\
  DocumentPage.status st' = DocumentPage.status st /\
  option_map DocumentData.updated_at (DocumentPage.document st') = Some (clock w) /\
  trace w2 = trace w.
Proof.
  intros Hdoc [Hup Hrow] Hobject Hparse w1.
  set (patch := mkPatch (Some (DocumentPage.title st))
                        (Some (DocumentPage.serialized (DocumentPage.content st)))
                        (Some (DocumentPage.status st)) (Some (clock w))).
  assert (Hheld : holds_document w1 (DocumentData.id d) (Supabase.apply_patch patch stored)
                  /\ trace w1 = trace w).
  { subst w1 patch. unfold world_after. unfold_editor. rewrite Hdoc.
    unfold_handler. simpl. rewrite Hup. simpl.
    unfold holds_document, with_table, log_call. simpl.
    split; [| reflexivity]. split; [exact Hup |].
    rewrite selection_after_update, Hrow. reflexivity. }
  destruct Hheld as [Hheld Htrace].
  rewrite (editor_fetch_found (v := DocumentPage.content st) DocumentPage.initial Hheld).
  - simpl. rewrite Htrace. repeat split.
  - subst patch. unfold Supabase.apply_patch. simpl.
    rewrite (serialized_object _ Hobject). exact Hparse.
Qed.

Lemma saved_document_reloads_witness :
  let w1 :=
    world_after (DocumentPage.saveDocument Samples.editing (Some Samples.alice))
                Samples.editing Samples.world in
  let '(r, st', w2) := DocumentPage.fetchDocument "1" DocumentPage.initial w1 in
  DocumentPage.content st' = Samples.tree 0.
Proof.
  assert (Hhold : holds_document Samples.world "1" Samples.plan_a)
    by (split; reflexivity).
  pose proof (@saved_document_reloads reference_JSON Samples.editing Samples.plan_a
                Samples.plan_a Samples.alice Samples.world eq_refl Hhold eq_refl eq_refl)
    as Hreload.
  vm_compute in Hreload. destruct Hreload as (_ & Hcontent & _).
  vm_compute. exact Hcontent.
Defined.

(** X17.  A content held in memory as a string is written without
    serialization, and read back as JSON text: after a successful save
    the stored content is that very string, and the editor page fetching
    the document again loads whatever the string parses to.  When the
    string is not JSON text the saved document cannot be opened any more:
    the fetch ends in the toast "Failed to fetch document" and a
    navigation to the dashboard. *)
Theorem string_content_is_saved_as_it_is
  `{JSON} (st : DocumentPage.State) (d stored : Row) (u : Auth.User) (s : string)
  (w : World) :
  DocumentPage.document st = Some d ->
  holds_document w (DocumentData.id d) stored ->
  DocumentPage.content st = JStr s ->
  let w1 := world_after (DocumentPage.saveDocument st (Some u)) st w in
  let '(r, st', w2) :=
    DocumentPage.fetchDocument (DocumentData.id d) DocumentPage.initial w1 in
  (exists saved, holds_document w1 (DocumentData.id d) saved /\
                 DocumentData.content saved = JStr s) /\
  (forall v, JSON_parse s = Some v -> DocumentPage.content st' = v /\ trace w2 = trace w) /\
  (JSON_parse s = None ->
   DocumentPage.content st' = JNull /\
   trace w2 =
     (trace w ++
      [ConsoleError "Error fetching document:" (SyntaxError "JSON.parse");
       Toast "Error" "Failed to fetch document" destructive;
       RouterPush "/dashboard"])%list).
Proof.
  intros Hdoc [Hup Hrow] Hcontent w1.
  set (patch := mkPatch (Some (DocumentPage.title st)) (Some s)
                        (Some (DocumentPage.status st)) (Some (clock w))).
  assert (Hw1 : outage w1 = None /\
                filter (Supabase.selected [("id", Some (DocumentData.id d))]) (table w1) =
                  [Supabase.apply_patch patch stored] /\
                trace w1 = trace w).
  { subst w1 patch. unfold world_after. unfold_editor. rewrite Hdoc, Hcontent.
    unfold_handler. simpl. rewrite Hup. simpl.
    unfold with_table, log_call. simpl.
    split; [exact Hup |]. split; [| reflexivity].
    rewrite selection_after_update, Hrow. reflexivity. }
  destruct Hw1 as (Hup1 & Hrow1 & Htrace1).
  unfold_fetch. unfold_handler. simpl. rewrite Hup1, Hrow1. simpl.
  destruct (JSON_parse s) as [v |] eqn:Hparse; simpl.
  - split; [exists (Supabase.apply_patch patch stored); repeat split; assumption |].
    split; [| discriminate].
    intros v' Hv'. injection Hv' as <-. split; [reflexivity | exact Htrace1].
  - split; [exists (Supabase.apply_patch patch stored); repeat split; assumption |].
    split; [discriminate |].
    intros _. split; [reflexivity |].
    rewrite Htrace1, <- !app_assoc. reflexivity.
Qed.

Lemma string_content_is_saved_as_it_is_witness :
  let st := DocumentPage.mkState (Some Samples.plan_a) "Plan A" (JStr "hello")
                                 "draft" false false in
  let w1 := world_after (DocumentPage.saveDocument st (Some Samples.alice)) st
                        Samples.world in
  let '(r, st', w2) := DocumentPage.fetchDocument "1" DocumentPage.initial w1 in
  trace w2 =
    [ConsoleError "Error fetching document:" (SyntaxError "JSON.parse");
     Toast "Error" "Failed to fetch document" destructive;
     RouterPush "/dashboard"].
Proof.
  assert (Hhold : holds_document Samples.world "1" Samples.plan_a)
    by (split; reflexivity).
  pose proof (@string_content_is_saved_as_it_is reference_JSON
                (DocumentPage.mkState (Some Samples.plan_a) "Plan A" (JStr "hello")
                                      "draft" false false)
                Samples.plan_a Samples.plan_a Samples.alice "hello" Samples.world
                eq_refl Hhold eq_refl) as Hsaved.
  exact (proj2 (proj2 (proj2 Hsaved) eq_refl)).
Defined.

(* ===================================================================== *)
(** * Edits that have not settled *)
(* ===================================================================== *)

(** A burst of content edits on top of a pending content timer, looked at
    before the quiet interval after the last edit is over: nothing has
    reached the world, the last tree is in the page and its timer is
    pending. *)
Lemma pending_burst_is_unsaved
  `{JSON} (user : option Auth.User) (horizon : Timestamp)
  (edits : list (Timestamp * JsValue)) :
  forall (prev : Timestamp) (v : JsValue) (s : EditorSession.t) (w : World),
    DocumentPage.content (EditorSession.page s) = v ->
    UseDebounce.timer (EditorSession.debouncedContent s) =
      Some (prev + EditorSession.delay, v) ->
    UseDebounce.timer (EditorSession.debouncedTitle s) = None ->
    within_quiet_interval prev edits ->
    Forall (fun e => is_object (snd e) = true) edits ->
    horizon < fst (last edits (prev, v)) + EditorSession.delay ->
    let '(s', w') := EditorSession.run user (typed edits) horizon s w in
    w' = with_clock horizon w /\
    DocumentPage.content (EditorSession.page s') = snd (last edits (prev, v)) /\
    UseDebounce.timer (EditorSession.debouncedContent s') =
      Some (fst (last edits (prev, v)) + EditorSession.delay, snd (last edits (prev, v))) /\
    UseDebounce.debouncedValue (EditorSession.debouncedContent s') =
      UseDebounce.debouncedValue (EditorSession.debouncedContent s).
Proof.
  induction edits as [| [t v'] rest IH];
    intros prev v s w Hcontent Htimer Hquiet Hwithin Hobjs Hhorizon.
  - simpl in *. unfold EditorSession.advance, UseDebounce.due.
    rewrite Htimer, Hquiet.
    destruct (prev + EditorSession.delay <=? horizon) eqn:Hdue; [lia |].
    auto.
  - simpl in Hwithin. destruct Hwithin as [Hnear Hwithin].
    inversion Hobjs as [| ? ? Hobj' Hobjs']; subst. simpl in Hobj'.
    rewrite last_cons in *.
    unfold typed. simpl. fold (typed rest).
    unfold EditorSession.advance at 1, UseDebounce.due.
    rewrite Htimer, Hquiet.
    destruct (prev + EditorSession.delay <=? t) eqn:Hdue; [lia |].
    unfold EditorSession.input.
    rewrite (Object_is_object _ v' Hobj').
    specialize (IH t v'
                   (EditorSession.mk
                      (DocumentPage.with_content v' (EditorSession.page s))
                      (UseDebounce.change t EditorSession.delay v'
                                          (EditorSession.debouncedContent s))
                      (EditorSession.debouncedTitle s))
                   (with_clock t w) eq_refl eq_refl Hquiet Hwithin Hobjs' Hhorizon).
    destruct (EditorSession.run user (typed rest) horizon _ (with_clock t w))
      as [s' w'].
    destruct IH as (Hworld & Hlast & Hpending & Hsettled).
    rewrite Hworld. auto.
Qed.

(** X18.  Nothing is written before the quiet interval is over: after a
    burst of content edits, each within the quiet interval of the one
    before, and until 1000 ms have passed since the last edit, no request
    has been sent and the store is as it was; the last tree lives in the
    page only, with its timer pending and the settled content still the
    one from before the burst. *)
Theorem unsettled_edits_are_not_saved
  `{JSON} (user : option Auth.User) (st : DocumentPage.State) (w : World)
  (t0 : Timestamp) (v0 : JsValue) (rest : list (Timestamp * JsValue))
  (horizon : Timestamp) :
  is_object v0 = true ->
  Forall (fun e => is_object (snd e) = true) rest ->
  within_quiet_interval t0 rest ->
  horizon < fst (last rest (t0, v0)) + 1000 ->
  let '(s', w') :=
    EditorSession.run user (typed ((t0, v0) :: rest)) horizon
                      (EditorSession.at_rest st) w in
  calls w' = calls w /\
  table w' = table w /\
  trace w' = trace w /\
  DocumentPage.content (EditorSession.page s') = snd (last rest (t0, v0)) /\
  UseDebounce.timer (EditorSession.debouncedContent s') =
    Some (fst (last rest (t0, v0)) + 1000, snd (last rest (t0, v0))) /\
  UseDebounce.debouncedValue (EditorSession.debouncedContent s') =
    DocumentPage.content st.
Proof.
  intros Hobj Hobjs Hquiet Hhorizon.
  unfold typed. simpl. fold (typed rest).
  rewrite (Object_is_object _ v0 Hobj).
  pose proof (@pending_burst_is_unsaved _ user horizon rest t0 v0
                (EditorSession.mk
                   (DocumentPage.with_content v0 st)
                   (UseDebounce.change t0 EditorSession.delay v0
                                       (UseDebounce.init (DocumentPage.content st)))
                   (UseDebounce.init (DocumentPage.title st)))
                (with_clock t0 w) eq_refl eq_refl eq_refl Hquiet Hobjs Hhorizon)
    as Hpending.
  destruct (EditorSession.run user (typed rest) horizon _ (with_clock t0 w)) as [s' w'].
  destruct Hpending as (Hworld & Hlast & Htimer & Hsettled).
  rewrite Hworld. auto 10.
Qed.

Lemma unsettled_edits_are_not_saved_witness :
  let '(s', w') :=
    EditorSession.run (Some Samples.alice)
      (typed [(0, Samples.tree 1); (100, Samples.tree 2);
              (300, Samples.tree 3); (950, Samples.tree 4)])
      1949 (EditorSession.at_rest Samples.editing) Samples.world_at_0 in
  calls w' = [] /\
  DocumentPage.content (EditorSession.page s') = Samples.tree 4.
Proof.
  assert (Hobjs : Forall (fun e : Timestamp * JsValue => is_object (snd e) = true)
                         [(100, Samples.tree 2); (300, Samples.tree 3);
                          (950, Samples.tree 4)])
    by (repeat constructor).
  assert (Hquiet : within_quiet_interval 0
                     [(100, Samples.tree 2); (300, Samples.tree 3);
                      (950, Samples.tree 4)])
    by (simpl; unfold EditorSession.delay; lia).
  assert (Hhorizon : 1949 < fst (last [(100, Samples.tree 2); (300, Samples.tree 3);
                                        (950, Samples.tree 4)] (0, Samples.tree 1)) + 1000)
    by (simpl; lia).
  pose proof (@unsettled_edits_are_not_saved reference_JSON (Some Samples.alice)
                Samples.editing Samples.world_at_0 0 (Samples.tree 1) _ 1949
                eq_refl Hobjs Hquiet Hhorizon) as Hpending.
  simpl in Hpending. destruct Hpending as (Hcalls & _ & _ & Hcontent & _).
  simpl. split; [exact Hcalls | exact Hcontent].
Defined.

(* ===================================================================== *)
(** * The link popover *)
(* ===================================================================== *)

(** X19.  The link popover sends the editor a link only for a non-empty
    URL, and then exactly the chain focus, extend the range over the
    link, set the link to the URL typed.  Whatever the URL, "Set Link"
    empties the field and closes the popover, so that a second "Set Link"
    or Enter sends nothing more; keys other than Enter do nothing.
    "Remove Link" sends one chain that sets no link, closes the popover
    and keeps the URL typed. *)
Theorem link_popover_sets_nonempty_url_once (st : TiptapEditor.State) :
  (snd (TiptapEditor.setLink st) = [] <-> TiptapEditor.linkUrl st = "") /\
  (forall chain,
      In chain (snd (TiptapEditor.setLink st)) ->
      TiptapEditor.linkUrl st <> "" /\
      chain = [TiptapEditor.Focus; TiptapEditor.ExtendMarkRange "link";
               TiptapEditor.SetLink (TiptapEditor.linkUrl st)]) /\
  fst (TiptapEditor.setLink st) = TiptapEditor.mkState "" false /\
  snd (TiptapEditor.and_then TiptapEditor.setLink TiptapEditor.setLink st) =
    snd (TiptapEditor.setLink st) /\
  snd (TiptapEditor.and_then TiptapEditor.setLink (TiptapEditor.onKeyDown "Enter") st) =
    snd (TiptapEditor.setLink st) /\
  (forall url,
      TiptapEditor.and_then (TiptapEditor.setLinkUrl url) (TiptapEditor.onKeyDown "Enter") st =
      TiptapEditor.setLink (TiptapEditor.mkState url (TiptapEditor.linkOpen st))) /\
  (forall key, key <> "Enter" -> TiptapEditor.onKeyDown key st = (st, [])) /\
  fst (TiptapEditor.removeLink st) =
    TiptapEditor.mkState (TiptapEditor.linkUrl st) false /\
  (forall chain href,
      In chain (snd (TiptapEditor.removeLink st)) ->
      ~ In (TiptapEditor.SetLink href) chain).
Proof.
  assert (Hremove : forall chain href,
             In chain (snd (TiptapEditor.removeLink st)) ->
             ~ In (TiptapEditor.SetLink href) chain).
  { intros chain href [<- | []] [Hin | [Hin | [Hin | []]]]; discriminate. }
  unfold TiptapEditor.and_then, TiptapEditor.onKeyDown, TiptapEditor.setLink,
    TiptapEditor.setLinkUrl. simpl.
  destruct (TiptapEditor.linkUrl st =? "")%string eqn:Hurl.
  - apply String.eqb_eq in Hurl.
    split; [split; [intros _; exact Hurl | reflexivity] |].
    split; [intros chain [] |].
    repeat (split; [reflexivity |]).
    split; [intros key Hkey; apply String.eqb_neq in Hkey; rewrite Hkey; reflexivity |].
    split; [reflexivity | exact Hremove].
  - apply String.eqb_neq in Hurl.
    split; [split; [discriminate | intros Hempty; contradiction] |].
    split; [intros chain [<- | []]; split; [exact Hurl | reflexivity] |].
    repeat (split; [reflexivity |]).
    split; [intros key Hkey; apply String.eqb_neq in Hkey; rewrite Hkey; reflexivity |].
    split; [reflexivity | exact Hremove].
Qed.

Lemma link_popover_sets_nonempty_url_once_witness :
  snd (TiptapEditor.and_then (TiptapEditor.setLinkUrl "https://example.org")
         (TiptapEditor.and_then (TiptapEditor.onKeyDown "Enter")
                                (TiptapEditor.onKeyDown "Enter"))
         TiptapEditor.initial) =
    [[TiptapEditor.Focus; TiptapEditor.ExtendMarkRange "link";
      TiptapEditor.SetLink "https://example.org"]].
Proof.
  pose proof (link_popover_sets_nonempty_url_once
                (TiptapEditor.mkState "https://example.org" false)) as Hlink.
  destruct Hlink as (_ & _ & _ & _ & Htwice & _).
  exact Htwice.
Defined.

(* ===================================================================== *)
(** * What the dashboard shows *)
(* ===================================================================== *)

(** X20.  Once loaded, the dashboard tells an empty listing from a search
    that finds nothing: it shows "You haven't created any documents yet"
    exactly when the listing is empty, "No documents match your search
    criteria" exactly when the listing is not empty and no document
    passes the search, and otherwise the table of the documents found,
    which is not empty.  The footer counts the documents found: it reads
    "0 documents" for none and "1 document" for one. *)
Theorem dashboard_tells_empty_from_unmatched `{JSString} (st : DashboardPage.State) :
  DashboardPage.isLoading st = false ->
  (DashboardPage.body st =
     DashboardPage.NoDocumentsFound "You haven't created any documents yet" <->
   DashboardPage.documents st = []) /\
  (DashboardPage.body st =
     DashboardPage.NoDocumentsFound "No documents match your search criteria" <->
   DashboardPage.documents st <> [] /\ DashboardPage.filteredDocuments st = []) /\
  (forall rows,
      DashboardPage.body st = DashboardPage.Table rows <->
      rows = DashboardPage.filteredDocuments st /\ rows <> []) /\
  (DashboardPage.filteredDocuments st = [] -> DashboardPage.footer st = "0 documents") /\
  (length (DashboardPage.filteredDocuments st) = 1%nat ->
   DashboardPage.footer st = "1 document").
Proof.
  intros Hloaded. unfold DashboardPage.body, DashboardPage.footer. rewrite Hloaded.
  assert (Hsub : DashboardPage.documents st = [] ->
                 DashboardPage.filteredDocuments st = []).
  { unfold DashboardPage.filteredDocuments. intros ->. reflexivity. }
  destruct (DashboardPage.filteredDocuments st) as [| doc found] eqn:Hfound; simpl.
  - destruct (DashboardPage.documents st) as [| doc rest] eqn:Hdocs; simpl.
    + split; [split; reflexivity |].
      split; [split; [discriminate | intros [Hne _]; contradiction] |].
      split; [| split; [reflexivity | discriminate]].
      intros rows. split; [discriminate | intros [-> Hne]; contradiction].
    + split; [split; discriminate |].
      split; [split; [intros _; split; [discriminate | reflexivity] | reflexivity] |].
      split; [| split; [reflexivity | discriminate]].
      intros rows. split; [discriminate | intros [-> Hne]; contradiction].
  - split; [split; [discriminate | intros Hdocs; specialize (Hsub Hdocs); discriminate] |].
    split; [split; [discriminate | intros [_ Hnone]; discriminate] |].
    split; [| split; [discriminate |]].
    + intros rows. split.
      * intros Hrows. injection Hrows as <-. split; [reflexivity | discriminate].
      * intros [-> _]. reflexivity.
    + intros Hone. destruct found; [reflexivity | discriminate].
Qed.

Lemma dashboard_tells_empty_from_unmatched_witness :
  @DashboardPage.body ascii_JSString (searching "budget" "all" Samples.dashboard) =
    DashboardPage.NoDocumentsFound "No documents match your search criteria".
Proof.
  pose proof (@dashboard_tells_empty_from_unmatched ascii_JSString
                (searching "budget" "all" Samples.dashboard) eq_refl) as Hshown.
  destruct Hshown as (_ & Hunmatched & _).
  apply Hunmatched. split; [discriminate | reflexivity].
Defined.

(* ===================================================================== *)
(** * Sharing *)
(* ===================================================================== *)

(** X21.  Sharing does not look at the status.  From the editor page and
    from the dashboard alike, sharing a document asks the clipboard to
    take [<origin>/document/<id>/view], without any request to the store.
    When the browser accepts the write, the link is on the clipboard and
    the toast "Link copied" is raised; when it refuses, the handler
    throws the refusal, the clipboard is as it was and no toast is
    raised.  With no document loaded the editor page does not try.  For a
    document that is not published, the view page fetching the id of that
    link answers with the access-denied toast and a navigation to
    ["/"]. *)
Theorem sharing_ignores_status
  (origin : string) (st : DocumentPage.State) (d : Row) (clip : Clipboard)
  (view : ViewDocumentPage.State) (w : World) :
  DocumentPage.document st = Some d ->
  holds_document w (DocumentData.id d) d ->
  DocumentData.status d <> "published" ->
  let link := (origin ++ "/document/" ++ DocumentData.id d ++ "/view")%string in
  let copied := log_effect (Toast "Link copied" "Shareable link copied to clipboard"
                                  default_variant) w in
  (refusal clip = None ->
   DocumentPage.shareDocument origin st clip w =
     (Done tt, mkClipboard (Some link) None, copied) /\
   DashboardPage.shareDocument origin (DocumentData.id d) clip w =
     (Done tt, mkClipboard (Some link) None, copied)) /\
  (forall e : Error,
      refusal clip = Some e ->
      DocumentPage.shareDocument origin st clip w = (Thrown e, clip, w) /\
      DashboardPage.shareDocument origin (DocumentData.id d) clip w =
        (Thrown e, clip, w)) /\
  (forall loading : DocumentPage.State,
      DocumentPage.document loading = None ->
      DocumentPage.shareDocument origin loading clip w = (Done tt, clip, w)) /\
  calls copied = calls w /\
  ViewDocumentPage.fetchDocument (DocumentData.id d) view copied =
    (Done tt,
     ViewDocumentPage.mkState (ViewDocumentPage.document view) false,
     log_effect (RouterPush "/")
       (log_effect (Toast "Access denied" "This document is not published for viewing"
                          destructive)
                   (log_call (Select [("id", Some (DocumentData.id d))] None true)
                             copied))).
Proof.
  intros Hdoc Hheld Hdraft link copied.
  unfold DocumentPage.shareDocument, DashboardPage.shareDocument,
    clipboard_writeText, shareableLink.
  rewrite Hdoc. unfold_handler.
  split; [intros Hfree; rewrite Hfree; split; reflexivity |].
  split; [intros e Hrefused; rewrite Hrefused; split; reflexivity |].
  split.
  - intros loading Hnone. rewrite Hnone. reflexivity.
  - split; [reflexivity |].
    assert (Hcopied : holds_document copied (DocumentData.id d) d).
    { destruct Hheld as [Hup Hrow]. split; assumption. }
    rewrite (view_fetch_found view Hcopied).
    apply String.eqb_neq in Hdraft. rewrite Hdraft. reflexivity.
Qed.

Lemma sharing_ignores_status_witness :
  DocumentPage.shareDocument "https://docs.example" Samples.editing
                             (mkClipboard None None) Samples.world =
    (Done tt, mkClipboard (Some "https://docs.example/document/1/view") None,
     log_effect (Toast "Link copied" "Shareable link copied to clipboard" default_variant)
                Samples.world) /\
  DashboardPage.shareDocument "https://docs.example" "1"
    (mkClipboard (Some "old") (Some (DOMException "NotAllowedError"))) Samples.world =
    (Thrown (DOMException "NotAllowedError"),
     mkClipboard (Some "old") (Some (DOMException "NotAllowedError")), Samples.world).
Proof.
  assert (Hhold : holds_document Samples.world "1" Samples.plan_a)
    by (split; reflexivity).
  assert (Hdraft : DocumentData.status Samples.plan_a <> "published") by discriminate.
  split.
  - pose proof (@sharing_ignores_status "https://docs.example" Samples.editing
                  Samples.plan_a (mkClipboard None None) ViewDocumentPage.initial
                  Samples.world eq_refl Hhold Hdraft) as Hshare.
    exact (proj1 (proj1 Hshare eq_refl)).
  - pose proof (@sharing_ignores_status "https://docs.example" Samples.editing
                  Samples.plan_a
                  (mkClipboard (Some "old") (Some (DOMException "NotAllowedError")))
                  ViewDocumentPage.initial Samples.world eq_refl Hhold Hdraft) as Hshare.
    exact (proj2 (proj1 (proj2 Hshare) _ eq_refl)).
Defined.

(* ===================================================================== *)
(** * What a save never does *)
(* ===================================================================== *)

(** X22.  Whatever the page holds and whatever the store answers, a save
    completes without throwing; it leaves the document, the title, the
    content and the status in memory as they were, asks for no
    navigation, and sends at most one request, an update.  A save that
    succeeds, and a save skipped for want of a document or a user, raise
    no toast. *)
Theorem save_never_navigates_or_edits
  `{JSON} (st : DocumentPage.State) (user : option Auth.User)
  (s0 : DocumentPage.State) (w : World) :
  let '(r, s1, w1) := DocumentPage.saveDocument st user s0 w in
  r = Done tt /\
  DocumentPage.document s1 = DocumentPage.document s0 /\
  DocumentPage.title s1 = DocumentPage.title s0 /\
  DocumentPage.content s1 = DocumentPage.content s0 /\
  DocumentPage.status s1 = DocumentPage.status s0 /\
  (forall route, In (RouterPush route) (trace w1) -> In (RouterPush route) (trace w)) /\
  (calls w1 = calls w \/ exists p fs, calls w1 = (calls w ++ [Update p fs])%list) /\
  (outage w = None -> trace w1 = trace w) /\
  (DocumentPage.document st = None \/ user = None -> s1 = s0 /\ w1 = w).
Proof.
  unfold_editor.
  destruct (DocumentPage.document st) as [doc |]; [destruct user as [u |] |];
    try (unfold ret; repeat split; auto; intros [Hnone | Hnone]; discriminate).
  unfold_handler. simpl.
  assert (Hpresent : forall P : Prop, Some doc = None \/ Some u = None -> P)
    by (intros P [Hnone | Hnone]; discriminate).
  destruct (outage w) as [e |]; simpl.
  - do 5 (split; [reflexivity |]).
    split; [| split; [| split; [discriminate | apply Hpresent]]].
    + intros route Hin. rewrite <- app_assoc in Hin.
      apply in_app_or in Hin as [Hin | Hin]; [exact Hin |].
      simpl in Hin. destruct Hin as [Hin | [Hin | []]]; discriminate.
    + right. eexists. eexists. reflexivity.
  - do 5 (split; [reflexivity |]).
    split; [| split; [| split; [reflexivity | apply Hpresent]]].
    + intros route Hin. exact Hin.
    + right. eexists. eexists. reflexivity.
Qed.
